(** * Gesture-controlled lights: a shallow embedding of [Hands.py] and [Runner.py]

  The development follows the two source files:
  - [Py] and [Numpy] model the few library operations the program calls
    ([int], subscripting, dictionary lookup, [math.hypot], [numpy.interp]);
  - [Hands] embeds the [Hand] class and [map_distance_to_scale];
  - [Runner] embeds the main loop of [runner], one camera frame per step.

  Numbers.  Python floats are idealised as exact rationals ([Q]): every
  finite double is a rational, the comparisons and the truncation [int] are
  exact, and only the rounding of the products and of the square root is
  left out.  NaN and infinities are not represented. *)

From Stdlib Require Import ZArith QArith Qround Qfield Lqa Ascii String Lia.
From stdpp Require Import gmap strings list.

Local Open Scope Z_scope.

(** ** Python runtime values and exceptions *)
Module Py.

(** The exceptions the modelled code can raise. *)
Inductive exn : Type :=
| KeyError
| TypeError
| IndexError
| SerialException.

(** The outcome of evaluating an expression: a value or a raised exception. *)
Inductive result (A : Type) : Type :=
| Ok (a : A)
| Raise (e : exn).
Arguments Ok {A} a.
Arguments Raise {A} e.

#[export] Instance result_ret : MRet result := fun A a => Ok a.
#[export] Instance result_bind : MBind result := fun A B f m =>
  match m with
  | Ok a => f a
  | Raise e => Raise e
  end.

(** [int(x)] on a float: truncation toward zero. *)
Definition int (x : Q) : Z := Z.quot (Qnum x) (Z.pos (Qden x)).

(** [x < y] on floats, as a boolean. *)
Definition Qlt_bool (x y : Q) : bool := negb (Qle_bool y x).

(** [d[k]] on a dictionary: [KeyError] when the key is absent. *)
Definition getitem {V : Type} (d : gmap Z V) (k : Z) : result V :=
  match d !! k with
  | Some v => Ok v
  | None => Raise KeyError
  end.

(** [l[i]] on a list for [i >= 0]: [IndexError] out of range. *)
Definition item {A : Type} (l : list A) (i : nat) : result A :=
  match l !! i with
  | Some a => Ok a
  | None => Raise IndexError
  end.

(** [l[-k]] on a list for [k >= 1]: the [k]-th element from the end. *)
Definition item_neg {A : Type} (l : list A) (k : nat) : result A :=
  if decide (1 <= k <= length l)%nat then item l (length l - k) else Raise IndexError.

(** Fractional bits kept by the model of [math.hypot]. *)
Definition hypot_bits : Z := 52.

(** [math.hypot(a, b)] on two ints: the square root of [a*a + b*b], exact
    when that is a perfect square and otherwise cut after [hypot_bits]
    binary places (the double the library returns is a rational within one
    unit in the last place of the same real number). *)
Definition hypot (a b : Z) : Q :=
  Qmake (Z.sqrt ((a * a + b * b) * 2 ^ (2 * hypot_bits)))
        (Z.to_pos (2 ^ hypot_bits)).

(** [s.encode('utf-8')] for the ASCII strings the program builds: one byte
    per character. *)
Definition encode_utf8 (s : string) : list Byte.byte := String.list_byte_of_string s.

(** The one-character string ["\n"]. *)
Definition newline : string := String "010"%char EmptyString.

End Py.

(** ** numpy.interp *)
Module Numpy.
Import Py.
Local Open Scope Q_scope.

(** [numpy.interp(x, [xp0, xp1], [fp0, fp1])] for two sample points with
    [xp0 < xp1]: [fp1] to the right of [xp1], [fp0] to the left of [xp0],
    the sample values at the sample points, and the chord in between. *)
Definition interp (x : Q) (xp fp : Q * Q) : Q :=
  let '(xp0, xp1) := xp in
  let '(fp0, fp1) := fp in
  if Qlt_bool xp1 x then fp1
  else if Qlt_bool x xp0 then fp0
  else if Qeq_bool x xp1 then fp1
  else if Qeq_bool x xp0 then fp0
  else (fp1 - fp0) / (xp1 - xp0) * (x - xp0) + fp0.

End Numpy.

(** ** Hands.py *)
Module Hands.
Import Py Numpy.

(** One landmark of the pose estimator: normalized coordinates (the depth
    coordinate is never read by the program). *)
Record landmark : Type := { lm_x : Q; lm_y : Q }.

(** [i.landmark]: the landmarks of one detected hand, in index order. *)
Definition hand_landmarks : Type := list landmark.

(** What [self.hands.process] returns; [multi_hand_landmarks] is [None]
    when no hand is found. *)
Record SolutionOutputs : Type :=
  { multi_hand_landmarks : option (list hand_landmarks) }.

(** A camera frame: its [shape[:2]] (height, then width) and what the
    external pose estimator reports when it processes the frame. *)
Record image : Type :=
  { shape : Z * Z;
    in_view : option (list hand_landmarks) }.

(** [self.hands.process(_img)] (the estimator itself is external). *)
Definition process (img : image) : SolutionOutputs :=
  {| multi_hand_landmarks := in_view img |}.

(** The attributes of a [Hand] object that the methods read and write. *)
Record Hand : Type :=
  { results : option SolutionOutputs;
    line_dist : Q }.

(** [Hand.__init__]. *)
Definition init : Hand := {| results := None; line_dist := 0 |}.

(** A method body: it may update [self] and returns a value or raises. *)
Definition M (A : Type) : Type := Hand -> Hand * result A.

#[export] Instance M_ret : MRet M := fun A a self => (self, Ok a).
#[export] Instance M_bind : MBind M := fun A B f m self =>
  match m self with
  | (self', Ok a) => f a self'
  | (self', Raise e) => (self', Raise e)
  end.

Definition get_self : M Hand := fun self => (self, Ok self).
Definition raise {A : Type} (e : exn) : M A := fun self => (self, Raise e).
Definition lift {A : Type} (r : result A) : M A := fun self => (self, r).
Definition set_results (r : SolutionOutputs) : M unit :=
  fun self => ({| results := Some r; line_dist := line_dist self |}, Ok tt).
Definition set_line_dist (d : Q) : M unit :=
  fun self => ({| results := results self; line_dist := d |}, Ok tt).

(** [get_hand] (lines 23-41). *)
Definition get_hand (img : image) : M image :=
  _ ← set_results (process img);
  mret img.

(** Lines 77-78 and 132-133: [if not self.results: self.get_hand(img)],
    followed by a read of [self.results]. *)
Definition ensure_results (img : image) : M SolutionOutputs :=
  self ← get_self;
  match results self with
  | Some r => mret r
  | None => _ ← get_hand img; mret (process img)
  end.

(** The hands of a detection.  As a condition, [multi_hand_landmarks] is
    false both when it is [None] and when it is an empty list. *)
Definition hands_of (r : SolutionOutputs) : list hand_landmarks :=
  match multi_hand_landmarks r with
  | Some hands => hands
  | None => []
  end.

(** The chain of comparisons at lines 57-66; [None] stands for the final
    [else]. *)
Definition finger_points (finger : string) : option (list nat) :=
  if String.eqb finger "thumb" then Some [2; 3; 4]%nat
  else if String.eqb finger "index" then Some [5; 6; 7; 8]%nat
  else if String.eqb finger "middle" then Some [9; 10; 11; 12]%nat
  else if String.eqb finger "ring" then Some [13; 14; 15; 16]%nat
  else if String.eqb finger "pinky" then Some [17; 18; 19; 20]%nat
  else None.

(** [enumerate(l)], counting from [start]. *)
Fixpoint enumerate {A : Type} (start : nat) (l : list A) : list (nat * A) :=
  match l with
  | [] => []
  | a :: l' => (start, a) :: enumerate (S start) l'
  end.

(** Line 85: the pixel position of one landmark in a frame of height [h]
    and width [w]. *)
Definition absolute (h w : Z) (lm : landmark) : Z * Z :=
  (int (lm_x lm * inject_Z w), int (lm_y lm * inject_Z h)).

(** Lines 83-85 for one hand [i]. *)
Definition hand_positions (h w : Z) (points : list nat) (i : hand_landmarks)
  : list (Z * Z) :=
  flat_map (fun '(point, lm) =>
              if decide (point ∈ points) then [absolute h w lm] else [])
           (enumerate 0 i).

(** Lines 77-87: the positions of the landmarks listed in [points], over
    all detected hands, or [None]. *)
Definition finger_positions (img : image) (points : list nat)
  : M (option (list (Z * Z))) :=
  r ← ensure_results img;
  let positions :=
    match hands_of r with
    | [] => []
    | hands => let '(h, w) := shape img in
               flat_map (hand_positions h w points) hands
    end in
  mret (match positions with [] => None | _ => Some positions end).

(** What [get_finger] returns: the positions of one finger (or [None]),
    or the five-element list of all fingers. *)
Inductive finger_value : Type :=
| Finger (positions : option (list (Z * Z)))
| AllFingers (fingers : list (option (list (Z * Z)))).

(** [get_finger] (lines 43-87).  The recursive calls of the final [else]
    are calls with the five known names. *)
Definition get_finger (img : image) (finger : string) : M finger_value :=
  match finger_points finger with
  | Some points => positions ← finger_positions img points; mret (Finger positions)
  | None =>
      thumb ← finger_positions img [2; 3; 4]%nat;
      index ← finger_positions img [5; 6; 7; 8]%nat;
      middle ← finger_positions img [9; 10; 11; 12]%nat;
      ring ← finger_positions img [13; 14; 15; 16]%nat;
      pinky ← finger_positions img [17; 18; 19; 20]%nat;
      mret (AllFingers [thumb; index; middle; ring; pinky])
  end.

(** Truth value of a value returned by [get_finger]. *)
Definition truthy (v : finger_value) : bool :=
  match v with
  | Finger None | Finger (Some []) | AllFingers [] => false
  | _ => true
  end.

(** The dictionary of lines 99 and 167. *)
Definition mapping : gmap Z string :=
  {[ 0 := "ZERO"; 1 := "ONE"; 2 := "TWO"; 3 := "THREE"; 4 := "FOUR"; 5 := "FIVE" ]}.

(** [points[f][-1][0] > points[f][-2][0]] (lines 106-114). *)
Definition tip_beyond_joint (points : finger_value) (f : nat) : result bool :=
  match points with
  | AllFingers fingers =>
      positions ← item fingers f;
      match positions with
      | None => Raise TypeError
      | Some ps =>
          tip ← item_neg ps 1;
          joint ← item_neg ps 2;
          mret (bool_decide (tip.1 > joint.1))
      end
  | Finger (Some ps) => _ ← item ps f; Raise TypeError
  | Finger None => Raise TypeError
  end.

(** One [if ...: count += 1] of lines 106-115. *)
Definition vote (points : finger_value) (f : nat) (count : Z) : result Z :=
  b ← tip_beyond_joint points f;
  mret (if b : bool then count + 1 else count).

(** [finger_count] (lines 89-117). *)
Definition finger_count (img : image) : M string :=
  points ← get_finger img "";
  count ← lift (if truthy points then
                  c ← vote points 1 0;
                  c ← vote points 2 c;
                  c ← vote points 3 c;
                  c ← vote points 4 c;
                  vote points 0 c
                else mret 0);
  lift (getitem mapping count).

(** The value bound to [fing1_pos] and [fing2_pos] at lines 137-138: [None],
    one pixel position, or (when the name is not a known finger) the last
    element of the five-finger list, itself a list of positions. *)
Inductive tip_value : Type :=
| TipNone
| TipPoint (p : Z * Z)
| TipList (ps : list (Z * Z)).

(** [v[-1]] for a value [v] returned by [get_finger]. *)
Definition last_of (v : finger_value) : result tip_value :=
  match v with
  | Finger None => Raise TypeError
  | Finger (Some ps) => p ← item_neg ps 1; mret (TipPoint p)
  | AllFingers fingers =>
      positions ← item_neg fingers 1;
      mret (match positions with None => TipNone | Some ps => TipList ps end)
  end.

(** [self.get_finger(img, finger)[-1] if self.get_finger(img, finger) else None]. *)
Definition tip_of (img : image) (finger : string) : M tip_value :=
  test ← get_finger img finger;
  if truthy test then
    v ← get_finger img finger;
    lift (last_of v)
  else mret TipNone.

(** Truth value of [fing1_pos] and of [fing2_pos] at line 140. *)
Definition tip_truthy (t : tip_value) : bool :=
  match t with
  | TipNone | TipList [] => false
  | _ => true
  end.

(** Line 141, right-hand side: defined on two pixel positions; a list of
    positions has tuples as elements, and subtracting those raises. *)
Definition tip_distance (t1 t2 : tip_value) : result Q :=
  match t1, t2 with
  | TipPoint p1, TipPoint p2 => Ok (hypot (p1.1 - p2.1) (p1.2 - p2.2))
  | _, _ => Raise TypeError
  end.

(** What [draw_line] returns: the frame (line 145), the three points with
    the distance (lines 147-151), or [(None, None)] (line 153). *)
Inductive draw_result : Type :=
| Drawn (img : image)
| Measured (pts : list (Z * Z)) (dist : Q)
| NoneNone.

(** Lines 147-151 for two pixel positions. *)
Definition measured (p1 p2 : Z * Z) (dist : Q) : draw_result :=
  Measured [p1; ((p1.1 + p2.1) `div` 2, (p1.2 + p2.2) `div` 2); p2] dist.

(** The [for] loop of lines 136-151 over the detected hands. *)
Fixpoint draw_line_loop (img : image) (finger1 finger2 : string) (draw : bool)
         (hands : list hand_landmarks) : M draw_result :=
  match hands with
  | [] => mret NoneNone
  | i :: hands' =>
      fing1_pos ← tip_of img finger1;
      fing2_pos ← tip_of img finger2;
      if tip_truthy fing1_pos && tip_truthy fing2_pos then
        d ← lift (tip_distance fing1_pos fing2_pos);
        _ ← set_line_dist d;
        if draw then mret (Drawn img)
        else
          match fing1_pos, fing2_pos with
          | TipPoint p1, TipPoint p2 => mret (measured p1 p2 d)
          | _, _ => raise TypeError
          end
      else draw_line_loop img finger1 finger2 draw hands'
  end.

(** [draw_line] (lines 119-153). *)
Definition draw_line (img : image) (finger1 finger2 : string) (draw : bool)
  : M draw_result :=
  r ← ensure_results img;
  draw_line_loop img finger1 finger2 draw (hands_of r).

(** [int(numpy.interp(distance, [min_distance, max_distance], [0, 5]))],
    the key looked up at line 168. *)
Definition scale_key (distance min_distance max_distance : Q) : Z :=
  int (interp distance (min_distance, max_distance) (0, 5)%Q).

(** [map_distance_to_scale] (lines 155-168). *)
Definition map_distance_to_scale (distance min_distance max_distance : Q)
  : result string :=
  getitem mapping (scale_key distance min_distance max_distance).

(** The default bounds of [map_distance_to_scale]. *)
Definition min_distance_default : Q := 15.
Definition max_distance_default : Q := 200.

End Hands.

(** ** Runner.py

    The loop of [runner] is embedded from line 66 on, with the port already
    selected and opened (lines 35-61 take no part in the properties below).
    The camera, the device and the keyboard are the environment: each pass
    of the loop consumes one [frame_event].  An asynchronous
    [KeyboardInterrupt] is not represented. *)
Module Runner.
Import Py Numpy Hands.

(** One call of [serial_.write]: the bytes passed, and whether the call
    returned normally ([false]: it raised [SerialException]). *)
Record write_call : Type :=
  { data : list Byte.byte;
    accepted : bool }.

(** The serial port object: whether it is open and the calls of [write]
    made so far, oldest first. *)
Record Serial : Type :=
  { is_open : bool;
    write_calls : list write_call }.

(** [serial_.write(data)]; the device decides whether the call succeeds. *)
Definition serial_write (device_ok : bool) (data : list Byte.byte) (port : Serial)
  : Serial * result unit :=
  ({| is_open := is_open port;
      write_calls := write_calls port ++ [{| data := data; accepted := device_ok |}] |},
   if device_ok then Ok tt else Raise SerialException).

(** The payloads that reached the device. *)
Definition wire (port : Serial) : list (list Byte.byte) :=
  data <$> filter (fun c => accepted c = true) (write_calls port).

(** What the outside world contributes to one pass of the loop: the
    outcome of [camera.read()], whether the device accepts a write made
    during the pass, and whether [q] is the key read by [cv2.waitKey]. *)
Record frame_event : Type :=
  { ret : bool;
    frame : image;
    device_ok : bool;
    key_q : bool }.

(** The local variables of [runner] that live across iterations. *)
Record state : Type :=
  { serial_ : Serial;
    detector : Hand;
    last_sent_data : string }.

(** Why the [while True] loop was left. *)
Inductive exit : Type :=
| FrameError                (* line 74 *)
| SerialError               (* line 87 *)
| QuitKey                   (* line 91 *)
| Uncaught (e : exn).       (* an exception no handler of the loop catches *)

(** The state at line 68: port open, nothing written, a fresh detector. *)
Definition initial : state :=
  {| serial_ := {| is_open := true; write_calls := [] |};
     detector := Hands.init;
     last_sent_data := "" |}.

(** Lines 76-78: detect, measure, scale.  Returns the detector after the
    calls and the text to send. *)
Definition scaled_distance (img : image) (det : Hand) : Hand * result string :=
  (_ ← get_hand img;
   _ ← draw_line img "thumb" "index" true;
   self ← get_self;
   level ← lift (map_distance_to_scale (line_dist self)
                                        min_distance_default max_distance_default);
   mret (level +:+ newline)) det.

(** Lines 89-91, after the transmission step. *)
Definition show_and_poll (ev : frame_event) : option exit :=
  if key_q ev then Some QuitKey else None.

(** One pass through the body of the loop (lines 71-93).  [None] means the
    loop goes on to the next pass. *)
Definition iteration (ev : frame_event) (st : state) : state * option exit :=
  if negb (ret ev) then (st, Some FrameError)
  else
    match scaled_distance (frame ev) (detector st) with
    | (det, Raise e) =>
        ({| serial_ := serial_ st; detector := det;
            last_sent_data := last_sent_data st |}, Some (Uncaught e))
    | (det, Ok scaled) =>
        if bool_decide (scaled ≠ last_sent_data st) then
          match serial_write (device_ok ev) (encode_utf8 scaled) (serial_ st) with
          | (port, Ok _) =>
              ({| serial_ := port; detector := det; last_sent_data := scaled |},
               show_and_poll ev)
          | (port, Raise _) =>
              ({| serial_ := port; detector := det;
                  last_sent_data := last_sent_data st |}, Some SerialError)
          end
        else
          ({| serial_ := serial_ st; detector := det;
              last_sent_data := last_sent_data st |}, show_and_poll ev)
    end.

(** The [while True] loop over the frames the world supplies.  [None]: the
    loop is still running when the supplied frames end. *)
Fixpoint loop (evs : list frame_event) (st : state) : state * option exit :=
  match evs with
  | [] => (st, None)
  | ev :: evs' =>
      match iteration ev st with
      | (st', None) => loop evs' st'
      | (st', Some why) => (st', Some why)
      end
  end.

(** The [finally] clause (lines 97-102), as far as the port is concerned. *)
Definition finally (st : state) : state :=
  {| serial_ := {| is_open := false; write_calls := write_calls (serial_ st) |};
     detector := detector st;
     last_sent_data := last_sent_data st |}.

(** [runner] from line 66 on: the loop, then the clean-up. *)
Definition runner (evs : list frame_event) : state * option exit :=
  let '(st, why) := loop evs initial in (finally st, why).

End Runner.

(** ** Vocabulary of the statements *)
Module Spec.
Import Py Numpy Hands Runner.

#[export] Instance byte_eq_dec : EqDecision Byte.byte := Byte.byte_eq_dec.

(** The level a name of [mapping] stands for: the key that holds it. *)
Definition level_of (name : string) : option Z :=
  fst <$> List.find (fun kv => bool_decide (kv.2 = name)) (map_to_list mapping).

(** The level a transmitted payload stands for: the key of [mapping] whose
    name, followed by a newline, encodes to these bytes. *)
Definition payload_level (payload : list Byte.byte) : option Z :=
  fst <$> List.find (fun kv => bool_decide (encode_utf8 (kv.2 +:+ newline) = payload))
                    (map_to_list mapping).

(** The payload the specification describes for level [k]: the decimal
    digit of [k], then a newline. *)
Definition digit_payload (k : Z) : list Byte.byte :=
  encode_utf8 (String (ascii_of_nat (48 + Z.to_nat k)) newline).

(** [round(x)] of the specification: to the nearest integer, ties to the
    even one. *)
Definition round (x : Q) : Z :=
  let f := Qfloor x in
  match ((x - inject_Z f) ?= (1 # 2))%Q with
  | Lt => f
  | Gt => f + 1
  | Eq => if Z.even f then f else f + 1
  end.

(** The coordinate conversion as the specification words it. *)
Definition absolute_rounded (h w : Z) (lm : landmark) : Z * Z :=
  (round (lm_x lm * inject_Z w), round (lm_y lm * inject_Z h)).

(** The detection a method call on [self] works with: the cached one, or
    that of [img] when nothing is cached. *)
Definition detection (self : Hand) (img : image) : SolutionOutputs :=
  match results self with
  | Some r => r
  | None => process img
  end.

(** [self] once that detection is cached on it. *)
Definition cached (self : Hand) (img : image) : Hand :=
  {| results := Some (detection self img); line_dist := line_dist self |}.

(** The positions lines 80-87 compute from a detection [r]. *)
Definition positions_in (r : SolutionOutputs) (img : image) (points : list nat)
  : option (list (Z * Z)) :=
  match flat_map (hand_positions (shape img).1 (shape img).2 points) (hands_of r) with
  | [] => None
  | ps => Some ps
  end.

(** The fingertip of a finger in a detection: the last position, if any. *)
Definition fingertip (r : SolutionOutputs) (img : image) (points : list nat)
  : option (Z * Z) :=
  positions_in r img points ≫= last.

(** The thumb-index fingertip distance in a detection, if both tips are
    there. *)
Definition tips_distance (r : SolutionOutputs) (img : image) : option Q :=
  p1 ← fingertip r img [2; 3; 4]%nat;
  p2 ← fingertip r img [5; 6; 7; 8]%nat;
  Some (hypot (p1.1 - p2.1) (p1.2 - p2.2)).

(** The thumb-index fingertip distance a frame shows; [None] is the
    detection gap: no hand, or no fingertip pair. *)
Definition fingertip_distance (img : image) : option Q :=
  tips_distance (process img) img.

(** The detector after lines 76-77 on frame [img]: the detection of the
    frame is cached, and the distance is replaced when the frame shows one. *)
Definition observe (img : image) (det : Hand) : Hand :=
  {| results := Some (process img);
     line_dist := match fingertip_distance img with
                  | Some d => d
                  | None => line_dist det
                  end |}.

(** The last payload that reached the device; empty before the first. *)
Definition transmission_record (port : Serial) : list Byte.byte :=
  default [] (last (wire port)).

(** The stored text is the last payload that reached the device. *)
Definition record_ok (st : state) : Prop :=
  encode_utf8 (last_sent_data st) = transmission_record (serial_ st).

(** The stored text is the text of the level of the stored distance. *)
Definition in_step (st : state) : Prop :=
  exists name,
    map_distance_to_scale (line_dist (detector st)) 15 200 = Ok name /\
    last_sent_data st = name +:+ newline.

(** [map_distance_to_scale], called with its default bounds, returns the
    name of level [k] for the distance [d]. *)
Definition maps_to_level (d : Q) (k : Z) : Prop :=
  exists name,
    map_distance_to_scale d min_distance_default max_distance_default = Ok name /\
    level_of name = Some k.

(** A payload made of one of the six names and a newline. *)
Definition name_payload (payload : list Byte.byte) : Prop :=
  exists (k : Z) (name : string),
    0 <= k <= 5 /\ mapping !! k = Some name /\
    payload = encode_utf8 (name +:+ newline).

End Spec.

(** ** Scripted frames and events *)
Module Script.
Import Py Numpy Hands Runner Spec.

(** A landmark at pixel [(a, b)] of a 1000 x 1000 frame. *)
Definition at_pixel (a b : Z) : landmark := {| lm_x := a # 1000; lm_y := b # 1000 |}.

(** A hand of 21 landmarks, all at the origin except the index fingertip
    (landmark 8), which is [d] pixels to the right of the thumb tip. *)
Definition hand_spanning (d : Z) : hand_landmarks :=
  (fun point => if decide (point = 8%nat) then at_pixel d 0 else at_pixel 0 0) <$> seq 0 21.

(** A frame that shows one such hand. *)
Definition frame_showing (d : Z) : image :=
  {| shape := (1000, 1000); in_view := Some [hand_spanning d] |}.

(** A frame that shows no hand. *)
Definition empty_frame : image := {| shape := (480, 640); in_view := None |}.

(** A hand whose landmarks all sit at 7/10 of the frame in both axes, in a
    frame of 4 x 4 pixels. *)
Definition small_frame : image :=
  {| shape := (4, 4);
     in_view := Some [(fun _ => {| lm_x := 7 # 10; lm_y := 7 # 10 |}) <$> seq 0 21] |}.

(** A hand with the index and middle fingertips to the right of the joints
    below them, every other landmark at the origin. *)
Definition two_up : image :=
  {| shape := (1000, 1000);
     in_view := Some [(fun point => if decide (point = 8%nat \/ point = 12%nat)
                                    then at_pixel 30 0 else at_pixel 0 0) <$> seq 0 21] |}.

(** A pass of the loop with a frame acquired, a working device and no key. *)
Definition pass (img : image) : frame_event :=
  {| ret := true; frame := img; device_ok := true; key_q := false |}.

(** The same with a device that refuses the write. *)
Definition failing (img : image) : frame_event :=
  {| ret := true; frame := img; device_ok := false; key_q := false |}.

End Script.

(** ** Runner.py: the choice of the serial port *)
Module Ports.
Import Py.

(** Lines 43-47: the first port whose description starts with ["COM" + com]
    selects the name ["COM" + com]; [None] when no description does. *)
Fixpoint select_port (com : string) (available_ports : list string) : option string :=
  match available_ports with
  | [] => None
  | port :: available_ports' =>
      if String.prefix ("COM" +:+ com) port then Some ("COM" +:+ com)
      else select_port com available_ports'
  end.

(** Line 49: [not selected_port], true for [None] and for the empty string. *)
Definition not_selected (selected_port : option string) : bool :=
  match selected_port with
  | None | Some EmptyString => true
  | Some _ => false
  end.

End Ports.

(** ** Vocabulary of the further statements *)
Module Readings.
Import Py Numpy Hands Runner Spec.

(** The comparison of lines 106-114 on the landmarks [tip] and [joint] of
    one hand, in a frame of height [h] and width [w]. *)
Definition extended (h w : Z) (i : hand_landmarks) (tip joint : nat) : bool :=
  match i !! tip, i !! joint with
  | Some t, Some j => bool_decide ((absolute h w t).1 > (absolute h w j).1)
  | _, _ => false
  end.

(** The number of fingers of a hand whose tip lies to the right of the
    joint below it. *)
Definition extension_count (h w : Z) (i : hand_landmarks) : Z :=
  Z.of_nat (length (List.filter (fun '(tip, joint) => extended h w i tip joint)
                                [(8, 7); (12, 11); (16, 15); (20, 19); (4, 3)]%nat)).

(** The landmarks of a hand at the given indices, converted to pixels. *)
Definition pixels_at (h w : Z) (points : list nat) (i : hand_landmarks) : list (Z * Z) :=
  omap (fun point => absolute h w <$> i !! point) points.

(** The distance stored on the detector after each frame of a sequence,
    starting from the stored distance [d]. *)
Fixpoint stored_distances (d : Q) (frames : list image) : list Q :=
  match frames with
  | [] => []
  | img :: frames' =>
      let d' := match fingertip_distance img with
                | Some shown => shown
                | None => d
                end in
      d' :: stored_distances d' frames'
  end.

(** The text line 78 builds for a stored distance. *)
Definition level_text (d : Q) : string :=
  match mapping !! scale_key d 15 200 with
  | Some name => name +:+ newline
  | None => newline
  end.

(** A sequence of texts with every text equal to its predecessor removed;
    [last] is the text before the first one. *)
Fixpoint debounce (last : string) (texts : list string) : list string :=
  match texts with
  | [] => []
  | text :: texts' =>
      if bool_decide (text ≠ last) then text :: debounce text texts'
      else debounce last texts'
  end.

End Readings.

(** * Properties *)

(** ** Arithmetic of the distance mapper *)
Section Arithmetic.
Import Py Numpy Hands Spec.
Local Open Scope Q_scope.

Lemma Qlt_bool_iff (x y : Q) : Qlt_bool x y = true <-> x < y.
Proof.
  unfold Qlt_bool. rewrite negb_true_iff, <- not_true_iff_false, Qle_bool_iff.
  split; [apply Qnot_le_lt | apply Qlt_not_le].
Qed.

Lemma Qlt_bool_false (x y : Q) : Qlt_bool x y = false <-> y <= x.
Proof.
  rewrite <- not_true_iff_false, Qlt_bool_iff.
  split; [apply Qnot_lt_le | apply Qle_not_lt].
Qed.


(** A value in the band [k, k+1) truncates to [k]. *)
Lemma int_band (v : Q) (k : Z) :
  (0 <= k)%Z -> inject_Z k <= v -> v < inject_Z (k + 1) -> int v = k.
Proof.
  destruct v as [a b]. unfold Qle, Qlt, int, inject_Z. simpl. intros Hk H1 H2.
  assert (0 <= a)%Z by nia.
  rewrite Z.quot_div_nonneg by lia.
  symmetry. apply Z.div_unique with (r := (a - Z.pos b * k)%Z); lia.
Qed.

(** The three regimes of [interp] with the default sample points. *)
Lemma interp_default_left (d : Q) : d < 15 -> interp d (15, 200) (0, 5) = 0.
Proof.
  intros H. unfold interp.
  destruct (Qlt_bool 200 d) eqn:E1; [apply Qlt_bool_iff in E1; lra|].
  destruct (Qlt_bool d 15) eqn:E2; [reflexivity|].
  apply Qlt_bool_false in E2. lra.
Qed.

Lemma interp_default_right (d : Q) : 200 <= d -> interp d (15, 200) (0, 5) = 5.
Proof.
  intros H. unfold interp.
  destruct (Qlt_bool 200 d) eqn:E1; [reflexivity|].
  destruct (Qlt_bool d 15) eqn:E2; [apply Qlt_bool_iff in E2; lra|].
  destruct (Qeq_bool d 200) eqn:E3; [reflexivity|].
  apply Qlt_bool_false in E1. apply Qeq_bool_neq in E3. exfalso. apply E3. lra.
Qed.

Lemma interp_default_chord (d : Q) :
  15 <= d -> d < 200 -> interp d (15, 200) (0, 5) == (d - 15) / 37.
Proof.
  intros H1 H2. unfold interp.
  destruct (Qlt_bool 200 d) eqn:E1; [apply Qlt_bool_iff in E1; lra|].
  destruct (Qlt_bool d 15) eqn:E2; [apply Qlt_bool_iff in E2; lra|].
  destruct (Qeq_bool d 200) eqn:E3; [apply Qeq_bool_iff in E3; lra|].
  destruct (Qeq_bool d 15) eqn:E4; [apply Qeq_bool_iff in E4; rewrite E4; reflexivity|].
  field.
Qed.

(** The key is the number of whole steps of 37 above 15. *)
Lemma scale_key_band (d : Q) (k : Z) :
  (0 <= k <= 4)%Z ->
  15 + 37 * inject_Z k <= d -> d < 15 + 37 * inject_Z (k + 1) ->
  scale_key d 15 200 = k.
Proof.
  intros Hk H1 H2. unfold scale_key.
  assert (Hk1 : inject_Z (k + 1) <= 5).
  { change 5 with (inject_Z 5). rewrite <- Zle_Qle. lia. }
  assert (Hk0 : 0 <= inject_Z k).
  { change 0 with (inject_Z 0). rewrite <- Zle_Qle. lia. }
  pose proof (interp_default_chord d ltac:(lra) ltac:(lra)) as Hc.
  apply int_band; [lia | rewrite Hc | rewrite Hc].
  - apply Qle_shift_div_l; lra.
  - apply Qlt_shift_div_r; lra.
Qed.

Lemma scale_key_left (d : Q) : d < 15 -> scale_key d 15 200 = 0%Z.
Proof. intros H. unfold scale_key. now rewrite interp_default_left. Qed.

Lemma scale_key_right (d : Q) : 200 <= d -> scale_key d 15 200 = 5%Z.
Proof. intros H. unfold scale_key. now rewrite interp_default_right. Qed.

(** Every distance falls in one of the six regimes. *)
Lemma scale_key_cases (d : Q) :
  (d < 15 /\ scale_key d 15 200 = 0%Z) \/
  (200 <= d /\ scale_key d 15 200 = 5%Z) \/
  exists k : Z, (0 <= k <= 4)%Z /\
    15 + 37 * inject_Z k <= d /\ d < 15 + 37 * inject_Z (k + 1) /\
    scale_key d 15 200 = k.
Proof.
  destruct (Qlt_le_dec d 15) as [H|H]; [left; split; [|apply scale_key_left]; easy|].
  destruct (Qlt_le_dec d 200) as [H'|H']; [|right; left; split; [|apply scale_key_right]; easy].
  right; right.
  assert (Hb : forall (k : Z) (lo hi : Q), (0 <= k <= 4)%Z ->
            lo == 15 + 37 * inject_Z k -> hi == 15 + 37 * inject_Z (k + 1) ->
            lo <= d -> d < hi ->
            exists k : Z, (0 <= k <= 4)%Z /\
              15 + 37 * inject_Z k <= d /\ d < 15 + 37 * inject_Z (k + 1) /\
              scale_key d 15 200 = k).
  { intros k lo hi Hk -> -> H1 H2. exists k. repeat split; try easy; try lia.
    now apply scale_key_band. }
  destruct (Qlt_le_dec d 52); [now apply (Hb 0%Z 15 52)|].
  destruct (Qlt_le_dec d 89); [now apply (Hb 1%Z 52 89)|].
  destruct (Qlt_le_dec d 126); [now apply (Hb 2%Z 89 126)|].
  destruct (Qlt_le_dec d 163); [now apply (Hb 3%Z 126 163)|].
  now apply (Hb 4%Z 163 200).
Qed.

Lemma scale_key_range (d : Q) : (0 <= scale_key d 15 200 <= 5)%Z.
Proof.
  destruct (scale_key_cases d) as [[_ ->] | [[_ ->] | (k & Hk & _ & _ & ->)]]; lia.
Qed.

(** The key is monotone in the distance, on the whole line. *)
Lemma scale_key_mono (d1 d2 : Q) :
  d1 <= d2 -> (scale_key d1 15 200 <= scale_key d2 15 200)%Z.
Proof.
  intros H.
  assert (Hinj : forall k : Z, (0 <= k <= 4)%Z ->
                   0 <= inject_Z k /\ inject_Z (k + 1) <= 5).
  { intros k Hk. change 0 with (inject_Z 0). change 5 with (inject_Z 5).
    rewrite <- !Zle_Qle. lia. }
  destruct (scale_key_cases d1) as [[H1 ->] | [[H1 ->] | (k1 & Hk1 & L1 & U1 & ->)]];
  destruct (scale_key_cases d2) as [[H2 ->] | [[H2 ->] | (k2 & Hk2 & L2 & U2 & ->)]];
    try lia.
  - exfalso. lra.
  - exfalso. destruct (Hinj k2 Hk2). lra.
  - exfalso. destruct (Hinj k1 Hk1). lra.
  - destruct (Z_le_gt_dec k1 k2) as [|Hgt]; [easy|]. exfalso.
    assert (inject_Z (k2 + 1) <= inject_Z k1) by (rewrite <- Zle_Qle; lia). lra.
Qed.

(** Looking up a key between 0 and 5 never fails, and [level_of] inverts it. *)
Lemma getitem_mapping (k : Z) :
  (0 <= k <= 5)%Z ->
  exists name, getitem mapping k = Ok name /\ mapping !! k = Some name /\
               level_of name = Some k.
Proof.
  intros Hk.
  assert (Hc : (k = 0 \/ k = 1 \/ k = 2 \/ k = 3 \/ k = 4 \/ k = 5)%Z) by lia.
  destruct Hc as [-> | [-> | [-> | [-> | [-> | ->]]]]]; eexists; repeat split; vm_compute; reflexivity.
Qed.

End Arithmetic.

(** ** The [Hand] methods *)
Section HandMethods.
Import Py Numpy Hands Spec.

Lemma ensure_results_run (self : Hand) (img : image) :
  ensure_results img self = (cached self img, Ok (detection self img)).
Proof.
  unfold ensure_results, cached, detection.
  destruct self as [[r|] d]; reflexivity.
Qed.

Lemma detection_cached (self : Hand) (img : image) :
  detection (cached self img) img = detection self img.
Proof. reflexivity. Qed.

Lemma cached_cached (self : Hand) (img : image) :
  cached (cached self img) img = cached self img.
Proof. reflexivity. Qed.

Lemma finger_positions_run (self : Hand) (img : image) (points : list nat) :
  finger_positions img points self
  = (cached self img, Ok (positions_in (detection self img) img points)).
Proof.
  unfold finger_positions, mbind, M_bind. rewrite ensure_results_run.
  unfold mret, M_ret, positions_in. f_equal. f_equal.
  destruct (shape img) as [h w]. simpl.
  destruct (hands_of (detection self img)) as [|i hands]; [reflexivity|].
  simpl. destruct (_ ++ _); reflexivity.
Qed.

Lemma get_finger_known (self : Hand) (img : image) (finger : string) (points : list nat) :
  finger_points finger = Some points ->
  get_finger img finger self
  = (cached self img, Ok (Finger (positions_in (detection self img) img points))).
Proof.
  intros Hp. unfold get_finger. rewrite Hp.
  unfold mbind, M_bind. now rewrite finger_positions_run.
Qed.

Lemma get_finger_unknown (self : Hand) (img : image) (finger : string) :
  finger_points finger = None ->
  get_finger img finger self
  = (cached self img,
     Ok (AllFingers (positions_in (detection self img) img <$>
                       [[2; 3; 4]; [5; 6; 7; 8]; [9; 10; 11; 12];
                        [13; 14; 15; 16]; [17; 18; 19; 20]]%nat))).
Proof.
  intros Hp. unfold get_finger. rewrite Hp.
  unfold mbind, M_bind.
  rewrite !finger_positions_run, ?cached_cached, ?detection_cached.
  repeat (rewrite finger_positions_run; rewrite ?cached_cached, ?detection_cached).
  reflexivity.
Qed.

(** The final [else] of [get_finger] is taken exactly by the strings that
    are not one of the five names. *)
Lemma finger_points_None (finger : string) :
  finger_points finger = None <->
  finger ∉ ["thumb"; "index"; "middle"; "ring"; "pinky"].
Proof.
  unfold finger_points.
  destruct (String.eqb_spec finger "thumb") as [->|?]; [split; [discriminate | set_solver]|].
  destruct (String.eqb_spec finger "index") as [->|?]; [split; [discriminate | set_solver]|].
  destruct (String.eqb_spec finger "middle") as [->|?]; [split; [discriminate | set_solver]|].
  destruct (String.eqb_spec finger "ring") as [->|?]; [split; [discriminate | set_solver]|].
  destruct (String.eqb_spec finger "pinky") as [->|?]; [split; [discriminate | set_solver]|].
  split; [|reflexivity]. intros _. rewrite !elem_of_cons, elem_of_nil. intuition congruence.
Qed.

Lemma enumerate_lookup {A : Type} (l : list A) (start point : nat) (a : A) :
  (point, a) ∈ enumerate start l <->
  exists j : nat, point = (start + j)%nat /\ l !! j = Some a.
Proof.
  revert start. induction l as [|b l IH]; intros start; simpl.
  - split; [intros H; inversion H | intros (j & _ & Hj); discriminate].
  - rewrite elem_of_cons, IH. split.
    + intros [Heq|(j & -> & Hj)].
      * inversion Heq; subst. exists 0%nat. split; [lia | reflexivity].
      * exists (S j). split; [lia | exact Hj].
    + intros ([|j] & -> & Hj).
      * left. simpl in Hj. inversion Hj; subst. f_equal. lia.
      * right. exists j. split; [lia | exact Hj].
Qed.

Lemma hand_positions_spec (h w : Z) (points : list nat) (i : hand_landmarks) (q : Z * Z) :
  q ∈ hand_positions h w points i <->
  exists (point : nat) (lm : landmark),
    i !! point = Some lm /\ point ∈ points /\ q = absolute h w lm.
Proof.
  unfold hand_positions. rewrite list_elem_of_In, in_flat_map. split.
  - intros ([point lm] & Hin & Hq).
    apply list_elem_of_In, enumerate_lookup in Hin. destruct Hin as (j & -> & Hj).
    destruct (decide _) as [Hp|]; [|destruct Hq].
    destruct Hq as [<-|[]]. exists (0 + j)%nat, lm. easy.
  - intros (point & lm & Hl & Hp & ->). exists (point, lm). split.
    + apply list_elem_of_In, enumerate_lookup. exists point. easy.
    + destruct (decide _); [now left | contradiction].
Qed.

Lemma positions_in_spec (r : SolutionOutputs) (img : image) (points : list nat)
      (ps : list (Z * Z)) (q : Z * Z) :
  positions_in r img points = Some ps ->
  (q ∈ ps <->
   exists (i : hand_landmarks) (point : nat) (lm : landmark),
     i ∈ hands_of r /\ i !! point = Some lm /\ point ∈ points /\
     q = absolute (shape img).1 (shape img).2 lm).
Proof.
  unfold positions_in. intros Hps.
  assert (ps = flat_map (hand_positions (shape img).1 (shape img).2 points) (hands_of r))
    as -> by (destruct (flat_map _ _); congruence).
  rewrite list_elem_of_In, in_flat_map. split.
  - intros (i & Hi & Hq). apply list_elem_of_In, hand_positions_spec in Hq.
    destruct Hq as (point & lm & ?). exists i, point, lm.
    rewrite list_elem_of_In. easy.
  - intros (i & point & lm & Hi & Hrest). exists i. split; [now apply list_elem_of_In|].
    apply list_elem_of_In, hand_positions_spec. eauto.
Qed.

Lemma positions_in_nonempty (r : SolutionOutputs) (img : image) (points : list nat)
      (ps : list (Z * Z)) :
  positions_in r img points = Some ps -> ps <> [].
Proof. unfold positions_in. destruct (flat_map _ _); congruence. Qed.

End HandMethods.

(** ** Measuring the fingertip distance *)
Section Measuring.
Import Py Numpy Hands Spec.

Lemma item_neg_last {A : Type} (l : list A) : l <> [] ->
  exists a, item_neg l 1 = Ok a /\ last l = Some a.
Proof.
  intros Hl. unfold item_neg, item.
  assert (0 < length l)%nat by (destruct l; [congruence | simpl; lia]).
  destruct (decide _) as [_|]; [|lia].
  rewrite last_lookup.
  replace (length l - 1)%nat with (pred (length l)) by lia.
  destruct (l !! pred (length l)) as [a|] eqn:E; [eauto|].
  apply lookup_ge_None in E. lia.
Qed.

(** With a known finger name the tip is a pixel position or [None]. *)
Lemma tip_of_known (self : Hand) (img : image) (finger : string) (points : list nat) :
  finger_points finger = Some points ->
  tip_of img finger self
  = (cached self img,
     Ok (from_option TipPoint TipNone (fingertip (detection self img) img points))).
Proof.
  intros Hp. unfold tip_of, mbind, M_bind.
  rewrite (get_finger_known _ _ _ _ Hp). unfold fingertip.
  destruct (positions_in (detection self img) img points) as [ps|] eqn:E; [|reflexivity].
  pose proof (positions_in_nonempty _ _ _ _ E) as Hne.
  destruct ps as [|p ps]; [congruence|]. cbn [truthy].
  rewrite (get_finger_known _ _ _ _ Hp), cached_cached, detection_cached, E.
  destruct (item_neg_last (p :: ps) Hne) as (a & Ha & Hl).
  unfold lift, last_of. rewrite Ha. cbn. now rewrite Hl.
Qed.

Lemma draw_line_loop_run (self : Hand) (img : image) (hands : list hand_landmarks) :
  hands <> [] ->
  draw_line_loop img "thumb" "index" true hands (cached self img)
  = match tips_distance (detection self img) img with
    | Some d => ({| results := Some (detection self img); line_dist := d |}, Ok (Drawn img))
    | None => (cached self img, Ok NoneNone)
    end.
Proof.
  induction hands as [|i hands IH]; [congruence|]. intros _.
  cbn [draw_line_loop]. unfold mbind at 1, M_bind at 1.
  rewrite (tip_of_known _ _ "thumb" [2; 3; 4]%nat eq_refl).
  unfold mbind at 1, M_bind at 1.
  rewrite (tip_of_known _ _ "index" [5; 6; 7; 8]%nat eq_refl).
  rewrite !cached_cached, !detection_cached. unfold tips_distance.
  destruct (fingertip (detection self img) img [2; 3; 4]%nat) as [p1|] eqn:E1;
    destruct (fingertip (detection self img) img [5; 6; 7; 8]%nat) as [p2|] eqn:E2; cbn;
    try reflexivity;
    (destruct hands as [|i' hands']; [reflexivity|]);
    rewrite IH by congruence; unfold tips_distance; rewrite E1; cbn; rewrite ?E2; reflexivity.
Qed.

Lemma tips_distance_no_hands (r : SolutionOutputs) (img : image) :
  hands_of r = [] -> tips_distance r img = None.
Proof.
  intros H. unfold tips_distance, fingertip, positions_in. now rewrite H.
Qed.

(** [draw_line] with its default fingers and [draw=True]: the distance of
    the cached detection is stored when there is one, and nothing is
    raised. *)
Lemma draw_line_run (self : Hand) (img : image) :
  draw_line img "thumb" "index" true self
  = match tips_distance (detection self img) img with
    | Some d => ({| results := Some (detection self img); line_dist := d |}, Ok (Drawn img))
    | None => (cached self img, Ok NoneNone)
    end.
Proof.
  unfold draw_line, mbind, M_bind. rewrite ensure_results_run.
  destruct (hands_of (detection self img)) as [|i hands] eqn:E.
  - now rewrite tips_distance_no_hands.
  - now rewrite draw_line_loop_run.
Qed.

(** [map_distance_to_scale] with its default bounds always returns one of
    the six names. *)
Lemma map_distance_to_scale_total (d : Q) :
  exists name, map_distance_to_scale d 15 200 = Ok name /\
               mapping !! scale_key d 15 200 = Some name /\
               level_of name = Some (scale_key d 15 200).
Proof. apply getitem_mapping, scale_key_range. Qed.

(** A frame in which the estimator finds no hand shows no distance. *)
Lemma no_hand_is_gap (img : image) :
  hands_of (process img) = [] -> fingertip_distance img = None.
Proof. apply tips_distance_no_hands. Qed.

End Measuring.

(** ** Invariants of the loop *)
Section LoopInvariants.
Import Py Numpy Hands Runner Spec.

(** Lines 76-78 never raise: the frame is observed and the text is the
    name of the level of the stored distance, followed by a newline. *)
Lemma scaled_distance_run (img : image) (det : Hand) :
  exists name,
    scaled_distance img det = (observe img det, Ok (name +:+ newline)) /\
    map_distance_to_scale (line_dist (observe img det)) 15 200 = Ok name.
Proof.
  destruct (map_distance_to_scale_total (line_dist (observe img det))) as (name & Hn & _).
  exists name. split; [|exact Hn].
  unfold scaled_distance, get_hand, mbind, M_bind, set_results. cbn [mret M_ret].
  rewrite draw_line_run. cbn [detection cached results line_dist].
  unfold observe, fingertip_distance in *.
  destruct (tips_distance (process img) img) as [d|]; cbn in *;
    unfold min_distance_default, max_distance_default; rewrite Hn; reflexivity.
Qed.

(** One pass of the loop on an acquired frame, spelled out. *)
Lemma iteration_run (ev : frame_event) (st : state) :
  ret ev = true ->
  exists name,
    map_distance_to_scale (line_dist (observe (frame ev) (detector st))) 15 200 = Ok name /\
    scaled_distance (frame ev) (detector st)
    = (observe (frame ev) (detector st), Ok (name +:+ newline)) /\
    iteration ev st
    = if bool_decide (name +:+ newline ≠ last_sent_data st) then
        if device_ok ev then
          ({| serial_ := (serial_write true (encode_utf8 (name +:+ newline)) (serial_ st)).1;
              detector := observe (frame ev) (detector st);
              last_sent_data := name +:+ newline |}, show_and_poll ev)
        else
          ({| serial_ := (serial_write false (encode_utf8 (name +:+ newline)) (serial_ st)).1;
              detector := observe (frame ev) (detector st);
              last_sent_data := last_sent_data st |}, Some SerialError)
      else
        ({| serial_ := serial_ st;
            detector := observe (frame ev) (detector st);
            last_sent_data := last_sent_data st |}, show_and_poll ev).
Proof.
  intros Hret.
  destruct (scaled_distance_run (frame ev) (detector st)) as (name & Hs & Hn).
  exists name. split; [exact Hn|]. split; [exact Hs|].
  unfold iteration. rewrite Hret, Hs. cbn [negb].
  destruct (bool_decide _); [|reflexivity].
  destruct (device_ok ev); reflexivity.
Qed.

Lemma encode_utf8_inj (s t : string) : encode_utf8 s = encode_utf8 t -> s = t.
Proof.
  unfold encode_utf8. intros H.
  rewrite <- (String.string_of_list_byte_of_string s),
          <- (String.string_of_list_byte_of_string t).
  now rewrite H.
Qed.

Lemma wire_app_call (port : Serial) (ok : bool) (bytes : list Byte.byte) :
  wire (serial_write ok bytes port).1
  = wire port ++ (if ok then [bytes] else []).
Proof.
  unfold wire, serial_write. cbn [fst write_calls].
  rewrite filter_app, fmap_app. f_equal.
  destruct ok.
  - rewrite filter_cons_True by reflexivity. reflexivity.
  - rewrite filter_cons_False by (cbn; congruence). reflexivity.
Qed.

Lemma record_ok_iteration (ev : frame_event) (st : state) :
  record_ok st -> record_ok (iteration ev st).1.
Proof.
  unfold record_ok. intros Hst.
  destruct (ret ev) eqn:Hret; [|unfold iteration; now rewrite Hret].
  destruct (iteration_run ev st Hret) as (name & _ & _ & ->).
  destruct (bool_decide _); [|destruct (show_and_poll ev); exact Hst].
  destruct (device_ok ev); cbn [fst serial_ last_sent_data];
    unfold transmission_record; rewrite wire_app_call.
  - now rewrite last_snoc.
  - now rewrite app_nil_r.
Qed.

Lemma record_ok_loop (evs : list frame_event) (st : state) :
  record_ok st -> record_ok (loop evs st).1.
Proof.
  revert st. induction evs as [|ev evs IH]; intros st Hst; [exact Hst|].
  cbn [loop]. pose proof (record_ok_iteration ev st Hst) as Hit.
  destruct (iteration ev st) as [st' [why|]]; [exact Hit|].
  apply IH, Hit.
Qed.

Lemma record_ok_initial : record_ok initial.
Proof. reflexivity. Qed.


Lemma name_payload_of (d : Q) (name : string) :
  map_distance_to_scale d 15 200 = Ok name ->
  name_payload (encode_utf8 (name +:+ newline)).
Proof.
  intros Hn. destruct (map_distance_to_scale_total d) as (name' & Hn' & Hm & _).
  rewrite Hn in Hn'. inversion Hn'; subst name'.
  exists (scale_key d 15 200), name. split; [apply scale_key_range | easy].
Qed.

(** Every call of [write] passes the text of a level. *)
Lemma payloads_iteration (ev : frame_event) (st : state) :
  Forall (fun c => name_payload (data c)) (write_calls (serial_ st)) ->
  Forall (fun c => name_payload (data c)) (write_calls (serial_ (iteration ev st).1)).
Proof.
  intros Hst.
  destruct (ret ev) eqn:Hret; [|unfold iteration; now rewrite Hret].
  destruct (iteration_run ev st Hret) as (name & Hn & _ & ->).
  destruct (bool_decide _); [|exact Hst].
  destruct (device_ok ev); cbn [fst serial_ serial_write write_calls];
    (apply Forall_app; split; [exact Hst|]);
    apply Forall_singleton; cbn [data]; exact (name_payload_of _ _ Hn).
Qed.

Lemma payloads_loop (evs : list frame_event) (st : state) :
  Forall (fun c => name_payload (data c)) (write_calls (serial_ st)) ->
  Forall (fun c => name_payload (data c)) (write_calls (serial_ (loop evs st).1)).
Proof.
  revert st. induction evs as [|ev evs IH]; intros st Hst; [exact Hst|].
  cbn [loop]. pose proof (payloads_iteration ev st Hst) as Hit.
  destruct (iteration ev st) as [st' [why|]]; [exact Hit|].
  apply IH, Hit.
Qed.

(** A pass that lets the loop go on leaves the stored text in step with
    the stored distance. *)
Lemma in_step_iteration (ev : frame_event) (st st' : state) :
  iteration ev st = (st', None) -> in_step st'.
Proof.
  intros Hit.
  destruct (ret ev) eqn:Hret; [|unfold iteration in Hit; rewrite Hret in Hit; discriminate].
  destruct (iteration_run ev st Hret) as (name & Hn & _ & Hrun).
  rewrite Hrun in Hit. clear Hrun.
  destruct (bool_decide _) eqn:Hneq.
  - destruct (device_ok ev); [|discriminate].
    inversion Hit; subst. exists name. easy.
  - apply bool_decide_eq_false in Hneq. apply dec_stable in Hneq.
    inversion Hit; subst. exists name. easy.
Qed.

Lemma in_step_loop (evs : list frame_event) (st st' : state) :
  in_step st -> loop evs st = (st', None) -> in_step st'.
Proof.
  revert st. induction evs as [|ev evs IH]; intros st Hst Hl.
  - cbn in Hl. now inversion Hl; subst.
  - cbn [loop] in Hl.
    destruct (iteration ev st) as [st1 [why|]] eqn:Hit; [discriminate|].
    eapply IH; [|exact Hl]. eapply in_step_iteration, Hit.
Qed.

Lemma in_step_after_first (ev0 : frame_event) (evs : list frame_event) (st : state) :
  loop (ev0 :: evs) initial = (st, None) -> in_step st.
Proof.
  cbn [loop]. intros Hl.
  destruct (iteration ev0 initial) as [st1 [why|]] eqn:Hit; [discriminate|].
  eapply in_step_loop; [|exact Hl]. eapply in_step_iteration, Hit.
Qed.

(** A frame that shows no fingertip pair leaves the stored distance alone. *)
Lemma observe_gap (img : image) (det : Hand) :
  fingertip_distance img = None -> line_dist (observe img det) = line_dist det.
Proof. intros H. unfold observe. cbn. now rewrite H. Qed.

Lemma runner_loop (evs : list frame_event) :
  runner evs = (finally (loop evs initial).1, (loop evs initial).2).
Proof. unfold runner. now destruct (loop evs initial). Qed.

End LoopInvariants.

(** ** The distance mapper (claims C3 and C9) *)
Section DistanceMapper.
Import Py Numpy Hands Spec.
Local Open Scope Q_scope.

Lemma maps_to_level_key (d : Q) : maps_to_level d (scale_key d 15 200).
Proof.
  destruct (map_distance_to_scale_total d) as (name & Hn & _ & Hl).
  exists name. split; assumption.
Qed.

Lemma maps_to_level_left (d : Q) : d < 15 -> maps_to_level d 0%Z.
Proof. intros H. rewrite <- (scale_key_left d H). apply maps_to_level_key. Qed.

Lemma maps_to_level_right (d : Q) : 200 <= d -> maps_to_level d 5%Z.
Proof. intros H. rewrite <- (scale_key_right d H). apply maps_to_level_key. Qed.

Lemma maps_to_level_band (d : Q) (k : Z) :
  (0 <= k <= 4)%Z ->
  15 + 37 * inject_Z k <= d -> d < 15 + 37 * inject_Z (k + 1) ->
  maps_to_level d k.
Proof.
  intros Hk H1 H2. rewrite <- (scale_key_band d k Hk H1 H2). apply maps_to_level_key.
Qed.

(** C3.  With the default bounds 15 and 200, [map_distance_to_scale] sends
    the distance 15 to level 0 and the distance 200 to level 5, and it
    saturates: every distance below 15 gives level 0 and every distance
    above 200 gives level 5.  (The value returned is the name [mapping]
    holds for the level.) *)
Theorem map_distance_to_scale_saturates (d : Q) :
  (d == 15 -> maps_to_level d 0%Z) /\
  (d == 200 -> maps_to_level d 5%Z) /\
  (d < 15 -> maps_to_level d 0%Z) /\
  (200 < d -> maps_to_level d 5%Z).
Proof.
  repeat split; intros H.
  - apply (maps_to_level_band d 0%Z); [lia | rewrite H; discriminate | rewrite H; reflexivity].
  - apply maps_to_level_right. rewrite H. apply Qle_refl.
  - now apply maps_to_level_left.
  - now apply maps_to_level_right, Qlt_le_weak.
Qed.

Lemma map_distance_to_scale_saturates_witness :
  maps_to_level 15 0%Z /\ maps_to_level 200 5%Z /\
  maps_to_level 10 0%Z /\ maps_to_level 205 5%Z.
Proof.
  split; [|split; [|split]].
  - apply (proj1 (map_distance_to_scale_saturates 15)). reflexivity.
  - apply (proj1 (proj2 (map_distance_to_scale_saturates 200))). reflexivity.
  - apply (proj1 (proj2 (proj2 (map_distance_to_scale_saturates 10)))). reflexivity.
  - apply (proj2 (proj2 (proj2 (map_distance_to_scale_saturates 205)))). reflexivity.
Defined.

(** C9.  [map_distance_to_scale] is monotonically non-decreasing in the
    distance: for distances [d1 <= d2] in [15, 200] the level returned for
    [d1] is at most the level returned for [d2]. *)
Theorem map_distance_to_scale_monotone (d1 d2 : Q) :
  15 <= d1 -> d1 <= d2 -> d2 <= 200 ->
  exists k1 k2 : Z,
    maps_to_level d1 k1 /\ maps_to_level d2 k2 /\ (k1 <= k2)%Z.
Proof.
  intros _ H _.
  exists (scale_key d1 15 200), (scale_key d2 15 200).
  split; [apply maps_to_level_key|]. split; [apply maps_to_level_key|].
  now apply scale_key_mono.
Qed.

Lemma map_distance_to_scale_monotone_witness :
  exists k1 k2 : Z,
    maps_to_level 50 k1 /\ maps_to_level 126 k2 /\ (k1 <= k2)%Z.
Proof.
  apply (map_distance_to_scale_monotone 50 126); discriminate.
Defined.

End DistanceMapper.

(** ** The finger geometry analyzer (claims C7 and C8) *)
Section FingerGeometry.
Import Py Numpy Hands Spec Script.

(** C7, as stated, fails: for the name ["palm"] and a frame with no hand
    the query does not return "unavailable" ([None]). *)
Lemma get_finger_unknown_not_unavailable :
  ~ (forall (finger : string) (self : Hand) (img : image),
       finger ∉ ["thumb"; "index"; "middle"; "ring"; "pinky"] ->
       (get_finger img finger self).2 = Ok (Finger None)).
Proof.
  intros H. specialize (H "palm" init empty_frame).
  assert (Hn : "palm" ∉ ["thumb"; "index"; "middle"; "ring"; "pinky"])
    by (apply finger_points_None; reflexivity).
  specialize (H Hn). vm_compute in H. discriminate H.
Qed.

(** C7, amended.  For every string that is not one of the five finger
    names, [get_finger] raises nothing and returns the five-element list
    of the results for thumb, index, middle, ring and pinky, in this
    order. *)
Theorem get_finger_unknown_all_fingers (finger : string) (self : Hand) (img : image) :
  finger ∉ ["thumb"; "index"; "middle"; "ring"; "pinky"] ->
  exists thumb index middle ring pinky : option (list (Z * Z)),
    (get_finger img finger self).2 = Ok (AllFingers [thumb; index; middle; ring; pinky]) /\
    (get_finger img "thumb" self).2 = Ok (Finger thumb) /\
    (get_finger img "index" self).2 = Ok (Finger index) /\
    (get_finger img "middle" self).2 = Ok (Finger middle) /\
    (get_finger img "ring" self).2 = Ok (Finger ring) /\
    (get_finger img "pinky" self).2 = Ok (Finger pinky).
Proof.
  intros Hf. apply finger_points_None in Hf.
  rewrite (get_finger_unknown _ _ _ Hf).
  do 5 eexists. split; [reflexivity|].
  repeat split; erewrite get_finger_known; reflexivity.
Qed.

Lemma get_finger_unknown_all_fingers_witness :
  exists thumb index middle ring pinky : option (list (Z * Z)),
    (get_finger (frame_showing 130) "palm" init).2
    = Ok (AllFingers [thumb; index; middle; ring; pinky]) /\
    (get_finger (frame_showing 130) "thumb" init).2 = Ok (Finger thumb) /\
    (get_finger (frame_showing 130) "index" init).2 = Ok (Finger index) /\
    (get_finger (frame_showing 130) "middle" init).2 = Ok (Finger middle) /\
    (get_finger (frame_showing 130) "ring" init).2 = Ok (Finger ring) /\
    (get_finger (frame_showing 130) "pinky" init).2 = Ok (Finger pinky).
Proof.
  apply (get_finger_unknown_all_fingers "palm" init (frame_showing 130)).
  apply finger_points_None. reflexivity.
Defined.

(** C8, as stated, fails: in a frame of 4 x 4 pixels a landmark at 7/10 of
    each axis lies at 2.8 pixels; the specification's rounding gives pixel
    3, and the positions returned for the thumb do not contain it. *)
Lemma positions_not_rounded :
  ~ (forall (img : image) (finger : string) (points : list nat) (self : Hand)
            (ps : list (Z * Z)),
       finger_points finger = Some points ->
       (get_finger img finger self).2 = Ok (Finger (Some ps)) ->
       forall (i : hand_landmarks) (point : nat) (lm : landmark),
         i ∈ hands_of (detection self img) -> i !! point = Some lm -> point ∈ points ->
         absolute_rounded (shape img).1 (shape img).2 lm ∈ ps).
Proof.
  intros H.
  specialize (H small_frame "thumb" [2; 3; 4]%nat init [(2, 2); (2, 2); (2, 2)]
                eq_refl eq_refl
                ((fun _ => {| lm_x := 7 # 10; lm_y := 7 # 10 |}) <$> seq 0 21)
                4%nat {| lm_x := 7 # 10; lm_y := 7 # 10 |}).
  assert (Hin : (3, 3) ∈ [(2, 2); (2, 2); (2, 2)]).
  { apply H; [apply list_elem_of_here | reflexivity | set_solver]. }
  rewrite !elem_of_cons, elem_of_nil in Hin.
  destruct Hin as [Hin|[Hin|[Hin|[]]]]; discriminate Hin.
Qed.

(** C8, amended.  The positions [get_finger] returns for a finger are the
    landmarks of that finger converted by truncation toward zero:
    [int(x * w)] and [int(y * h)], where [h] and [w] are the height and
    width of the very image passed to the call. *)
Theorem positions_truncated (img : image) (finger : string) (points : list nat)
        (self : Hand) (ps : list (Z * Z)) (q : Z * Z) :
  finger_points finger = Some points ->
  (get_finger img finger self).2 = Ok (Finger (Some ps)) ->
  (q ∈ ps <->
   exists (i : hand_landmarks) (point : nat) (lm : landmark),
     i ∈ hands_of (detection self img) /\ i !! point = Some lm /\ point ∈ points /\
     q = (int (lm_x lm * inject_Z (shape img).2), int (lm_y lm * inject_Z (shape img).1))).
Proof.
  intros Hp Hg. rewrite (get_finger_known _ _ _ _ Hp) in Hg. cbn in Hg.
  assert (Hps : positions_in (detection self img) img points = Some ps) by congruence.
  apply (positions_in_spec _ _ _ _ q Hps).
Qed.

Lemma positions_truncated_witness :
  (2, 2) ∈ [(2, 2); (2, 2); (2, 2)] <->
  exists (i : hand_landmarks) (point : nat) (lm : landmark),
    i ∈ hands_of (detection init small_frame) /\ i !! point = Some lm /\
    point ∈ [2; 3; 4]%nat /\
    (2, 2) = (int (lm_x lm * inject_Z (shape small_frame).2),
              int (lm_y lm * inject_Z (shape small_frame).1)).
Proof.
  apply (positions_truncated small_frame "thumb" [2; 3; 4]%nat init); reflexivity.
Defined.

End FingerGeometry.

(** ** The extension classifier (claim C6) *)
Section ExtensionClassifier.
Import Py Numpy Hands Spec Script.

(** C6.  On every input with no hand in the detection, [finger_count]
    returns neither "undetected" nor a count name: the test [if points:]
    is true for the list of five [None] values, and the first comparison
    subscripts [None], which raises [TypeError]. *)
Theorem finger_count_raises_without_hand (self : Hand) (img : image) :
  hands_of (detection self img) = [] ->
  (finger_count img self).2 = Raise TypeError /\
  (finger_count img self).2 <> Ok "undetected" /\
  (finger_count img self).2 <> Ok "ZERO".
Proof.
  intros Hh.
  assert (Hr : (finger_count img self).2 = Raise TypeError).
  { unfold finger_count, mbind at 1, M_bind at 1.
    rewrite (get_finger_unknown _ _ "" eq_refl).
    unfold positions_in. rewrite Hh. reflexivity. }
  rewrite Hr. repeat split; discriminate.
Qed.

Lemma finger_count_raises_without_hand_witness :
  (finger_count empty_frame init).2 = Raise TypeError /\
  (finger_count empty_frame init).2 <> Ok "undetected" /\
  (finger_count empty_frame init).2 <> Ok "ZERO".
Proof. apply (finger_count_raises_without_hand init empty_frame). reflexivity. Defined.

End ExtensionClassifier.

(** ** The control loop (claims C1, C2, C4, C5 and C10) *)
Section ControlLoop.
Import Py Numpy Hands Runner Spec Script.

Lemma text_not_empty (name : string) : name +:+ newline <> "".
Proof. destruct name; discriminate. Qed.

Lemma write_calls_finally (st : state) :
  write_calls (serial_ (finally st)) = write_calls (serial_ st).
Proof. reflexivity. Qed.

Lemma wire_finally (st : state) : wire (serial_ (finally st)) = wire (serial_ st).
Proof. reflexivity. Qed.

(** A pass with a working device and no key pressed lets the loop go on. *)
Lemma iteration_ok (ev : frame_event) (st : state) (name : string) :
  ret ev = true -> device_ok ev = true -> key_q ev = false ->
  map_distance_to_scale (line_dist (observe (frame ev) (detector st))) 15 200 = Ok name ->
  iteration ev st
  = ({| serial_ := if bool_decide (name +:+ newline ≠ last_sent_data st)
                   then (serial_write true (encode_utf8 (name +:+ newline)) (serial_ st)).1
                   else serial_ st;
        detector := observe (frame ev) (detector st);
        last_sent_data := name +:+ newline |}, None).
Proof.
  intros Hret Hdev Hkey Hname.
  destruct (iteration_run ev st Hret) as (name' & Hn' & _ & ->).
  rewrite Hname in Hn'. inversion Hn'; subst name'.
  unfold show_and_poll. rewrite Hdev, Hkey.
  destruct (bool_decide _) eqn:E; [reflexivity|].
  apply bool_decide_eq_false in E. apply dec_stable in E. now rewrite E.
Qed.

Lemma scaled_distance_name (img : image) (det : Hand) (scaled : string) :
  (scaled_distance img det).2 = Ok scaled ->
  exists name,
    map_distance_to_scale (line_dist (observe img det)) 15 200 = Ok name /\
    scaled = name +:+ newline.
Proof.
  destruct (scaled_distance_run img det) as (name & -> & Hn). cbn.
  intros H. inversion H. eauto.
Qed.

(** C1.  In every pass of the loop that acquires a frame, the level text
    is passed to [serial_.write] if and only if it differs from the last
    payload that reached the device, which is what [last_sent_data]
    holds.  In particular, from a fresh start two passes with the same
    level put exactly one payload on the wire, and two passes with
    different levels put two. *)
Theorem debounce_invariant :
  (forall (evs : list frame_event) (st : state) (ev : frame_event),
     loop evs initial = (st, None) -> ret ev = true ->
     exists scaled : string,
       (scaled_distance (frame ev) (detector st)).2 = Ok scaled /\
       encode_utf8 (last_sent_data st) = transmission_record (serial_ st) /\
       (encode_utf8 scaled <> transmission_record (serial_ st) ->
        write_calls (serial_ (iteration ev st).1)
        = write_calls (serial_ st)
            ++ [{| data := encode_utf8 scaled; accepted := device_ok ev |}]) /\
       (encode_utf8 scaled = transmission_record (serial_ st) ->
        write_calls (serial_ (iteration ev st).1) = write_calls (serial_ st)))
  /\
  (forall (ev1 ev2 : frame_event) (s1 s2 : string),
     ret ev1 = true -> device_ok ev1 = true -> key_q ev1 = false ->
     ret ev2 = true -> device_ok ev2 = true -> key_q ev2 = false ->
     (scaled_distance (frame ev1) (detector initial)).2 = Ok s1 ->
     (scaled_distance (frame ev2) (detector (iteration ev1 initial).1)).2 = Ok s2 ->
     (s1 = s2 -> wire (serial_ (runner [ev1; ev2]).1) = [encode_utf8 s1]) /\
     (s1 <> s2 -> wire (serial_ (runner [ev1; ev2]).1) = [encode_utf8 s1; encode_utf8 s2])).
Proof.
  split.
  - intros evs st ev Hloop Hret.
    pose proof (record_ok_loop evs initial record_ok_initial) as Hrec.
    rewrite Hloop in Hrec. unfold record_ok in Hrec. cbn [fst] in Hrec.
    destruct (iteration_run ev st Hret) as (name & _ & Hs & ->).
    exists (name +:+ newline). rewrite Hs. split; [reflexivity|]. split; [exact Hrec|].
    rewrite <- Hrec. split; intros Hd.
    + rewrite bool_decide_eq_true_2 by congruence.
      destruct (device_ok ev); reflexivity.
    + apply encode_utf8_inj in Hd.
      rewrite bool_decide_eq_false_2 by (intros Hne; apply Hne, Hd). reflexivity.
  - intros ev1 ev2 s1 s2 Hr1 Hd1 Hk1 Hr2 Hd2 Hk2 Hs1 Hs2.
    apply scaled_distance_name in Hs1 as (n1 & Hn1 & ->).
    rewrite (iteration_ok ev1 initial n1 Hr1 Hd1 Hk1 Hn1) in Hs2. cbn [fst detector] in Hs2.
    apply scaled_distance_name in Hs2 as (n2 & Hn2 & ->).
    rewrite runner_loop. cbn [fst]. rewrite wire_finally. cbn [loop].
    rewrite (iteration_ok ev1 initial n1 Hr1 Hd1 Hk1 Hn1).
    match goal with
    | |- context [iteration ev2 ?st] => rewrite (iteration_ok ev2 st n2 Hr2 Hd2 Hk2 Hn2)
    end.
    cbn [fst serial_ last_sent_data initial].
    rewrite (bool_decide_eq_true_2 (n1 +:+ newline ≠ "")) by apply text_not_empty.
    split; intros Hc.
    + rewrite bool_decide_eq_false_2 by (intros Hne; apply Hne; congruence). reflexivity.
    + rewrite bool_decide_eq_true_2 by congruence. reflexivity.
Qed.

Lemma debounce_invariant_witness :
  (exists scaled : string,
     (scaled_distance (frame (pass (frame_showing 140)))
                      (detector (loop [pass (frame_showing 130)] initial).1)).2 = Ok scaled /\
     write_calls (serial_ (iteration (pass (frame_showing 140))
                                     (loop [pass (frame_showing 130)] initial).1).1)
     = write_calls (serial_ (loop [pass (frame_showing 130)] initial).1)) /\
  wire (serial_ (runner [pass (frame_showing 130); pass (frame_showing 140)]).1)
  = [encode_utf8 ("THREE" +:+ newline)] /\
  wire (serial_ (runner [pass (frame_showing 130); pass (frame_showing 170)]).1)
  = [encode_utf8 ("THREE" +:+ newline); encode_utf8 ("FOUR" +:+ newline)].
Proof.
  split; [|split].
  - destruct (proj1 debounce_invariant [pass (frame_showing 130)]
                    (loop [pass (frame_showing 130)] initial).1
                    (pass (frame_showing 140)))
      as (scaled & Hs & _ & _ & Hsame); [reflexivity | reflexivity |].
    exists scaled. split; [exact Hs|]. apply Hsame.
    vm_compute in Hs. inversion Hs. reflexivity.
  - apply (proj2 debounce_invariant (pass (frame_showing 130)) (pass (frame_showing 140))
                 ("THREE" +:+ newline) ("THREE" +:+ newline));
      reflexivity.
  - apply (proj2 debounce_invariant (pass (frame_showing 130)) (pass (frame_showing 170))
                 ("THREE" +:+ newline) ("FOUR" +:+ newline));
      try reflexivity. discriminate.
Defined.

(** C2, as stated, fails: the loop started on a frame with no hand writes
    a payload that is not a digit followed by a newline. *)
Lemma payload_not_digit :
  ~ (forall (evs : list frame_event) (st : state) (why : option exit) (c : write_call),
       runner evs = (st, why) -> c ∈ write_calls (serial_ st) ->
       exists k : Z, 0 <= k <= 5 /\ data c = digit_payload k).
Proof.
  intros H.
  destruct (H [pass empty_frame] _ _
              {| data := encode_utf8 ("ZERO" +:+ newline); accepted := true |} eq_refl)
    as (k & _ & Hk).
  - cbn. apply list_elem_of_here.
  - apply (f_equal length) in Hk. discriminate Hk.
Qed.

Lemma map_distance_to_scale_of_key (d : Q) (k : Z) (name : string) :
  scale_key d 15 200 = k -> mapping !! k = Some name ->
  map_distance_to_scale d 15 200 = Ok name.
Proof. intros Hk Hm. unfold map_distance_to_scale, getitem. now rewrite Hk, Hm. Qed.

Lemma observe_distance (img : image) (det : Hand) (d : Q) :
  fingertip_distance img = Some d -> line_dist (observe img det) = d.
Proof. intros H. unfold observe. cbn. now rewrite H. Qed.

(** C4, as stated, fails: three frames whose fingertip distances are 10,
    50 and 205 do not produce the levels 0, 1, 5 in three writes. *)
Lemma end_to_end_not_three_writes :
  (exists d1 d2 d3 : Q,
     fingertip_distance (frame_showing 10) = Some d1 /\ (d1 == 10)%Q /\
     fingertip_distance (frame_showing 50) = Some d2 /\ (d2 == 50)%Q /\
     fingertip_distance (frame_showing 205) = Some d3 /\ (d3 == 205)%Q) /\
  ~ (payload_level <$>
       wire (serial_ (runner [pass (frame_showing 10); pass (frame_showing 50);
                              pass (frame_showing 205)]).1)
     = [Some 0; Some 1; Some 5] /\
     length (write_calls
               (serial_ (runner [pass (frame_showing 10); pass (frame_showing 50);
                                 pass (frame_showing 205)]).1)) = 3%nat).
Proof.
  split.
  - do 3 eexists. repeat split.
  - intros [_ H]. vm_compute in H. discriminate H.
Qed.

(** C4, amended.  Fed three acquired frames whose thumb-index fingertip
    distances are 10, 50 and 205, with a working device and no key
    pressed, the loop started from the empty transmission record
    transmits the levels 0 and 5 in exactly two writes: the distance 50
    truncates to level 0 and is not sent again. *)
Theorem end_to_end_two_writes (ev1 ev2 ev3 : frame_event) (d1 d2 d3 : Q) :
  ret ev1 = true -> device_ok ev1 = true -> key_q ev1 = false ->
  ret ev2 = true -> device_ok ev2 = true -> key_q ev2 = false ->
  ret ev3 = true -> device_ok ev3 = true -> key_q ev3 = false ->
  fingertip_distance (frame ev1) = Some d1 -> (d1 == 10)%Q ->
  fingertip_distance (frame ev2) = Some d2 -> (d2 == 50)%Q ->
  fingertip_distance (frame ev3) = Some d3 -> (d3 == 205)%Q ->
  payload_level <$> wire (serial_ (runner [ev1; ev2; ev3]).1) = [Some 0; Some 5] /\
  length (write_calls (serial_ (runner [ev1; ev2; ev3]).1)) = 2%nat /\
  Forall (fun c => accepted c = true) (write_calls (serial_ (runner [ev1; ev2; ev3]).1)) /\
  (runner [ev1; ev2; ev3]).2 = None.
Proof.
  intros Hr1 Hd1 Hk1 Hr2 Hd2 Hk2 Hr3 Hd3 Hk3 Hf1 He1 Hf2 He2 Hf3 He3.
  assert (Hn1 : map_distance_to_scale
                  (line_dist (observe (frame ev1) (detector initial))) 15 200 = Ok "ZERO").
  { rewrite (observe_distance _ _ _ Hf1).
    apply (map_distance_to_scale_of_key d1 0); [|reflexivity].
    apply scale_key_left. rewrite He1. reflexivity. }
  rewrite runner_loop. cbn [loop].
  rewrite (iteration_ok ev1 initial "ZERO" Hr1 Hd1 Hk1 Hn1).
  match goal with
  | |- context [iteration ev2 ?st] =>
      assert (Hn2 : map_distance_to_scale
                      (line_dist (observe (frame ev2) (detector st))) 15 200 = Ok "ZERO");
      [|rewrite (iteration_ok ev2 st "ZERO" Hr2 Hd2 Hk2 Hn2)]
  end.
  { rewrite (observe_distance _ _ _ Hf2).
    apply (map_distance_to_scale_of_key d2 0); [|reflexivity].
    apply (scale_key_band d2 0); [lia | rewrite He2; discriminate | rewrite He2; reflexivity]. }
  match goal with
  | |- context [iteration ev3 ?st] =>
      assert (Hn3 : map_distance_to_scale
                      (line_dist (observe (frame ev3) (detector st))) 15 200 = Ok "FIVE");
      [|rewrite (iteration_ok ev3 st "FIVE" Hr3 Hd3 Hk3 Hn3)]
  end.
  { rewrite (observe_distance _ _ _ Hf3).
    apply (map_distance_to_scale_of_key d3 5); [|reflexivity].
    apply scale_key_right. rewrite He3. discriminate. }
  cbn [fst snd]. rewrite wire_finally, write_calls_finally.
  cbn [serial_ last_sent_data initial].
  repeat split.
  repeat constructor.
Qed.

Lemma end_to_end_two_writes_witness :
  payload_level <$>
    wire (serial_ (runner [pass (frame_showing 10); pass (frame_showing 50);
                           pass (frame_showing 205)]).1)
  = [Some 0; Some 5] /\
  length (write_calls
            (serial_ (runner [pass (frame_showing 10); pass (frame_showing 50);
                              pass (frame_showing 205)]).1)) = 2%nat /\
  Forall (fun c => accepted c = true)
         (write_calls
            (serial_ (runner [pass (frame_showing 10); pass (frame_showing 50);
                              pass (frame_showing 205)]).1)) /\
  (runner [pass (frame_showing 10); pass (frame_showing 50);
           pass (frame_showing 205)]).2 = None.
Proof.
  eapply (end_to_end_two_writes (pass (frame_showing 10)) (pass (frame_showing 50))
                                (pass (frame_showing 205)));
    reflexivity.
Defined.

(** C5, as stated, fails: in the first pass of the loop a frame with no
    hand is followed by a serial write. *)
Lemma detection_gap_transmits :
  ~ (forall (evs : list frame_event) (st : state) (ev : frame_event),
       loop evs initial = (st, None) -> ret ev = true ->
       fingertip_distance (frame ev) = None ->
       write_calls (serial_ (iteration ev st).1) = write_calls (serial_ st)).
Proof.
  intros H. specialize (H [] initial (pass empty_frame) eq_refl eq_refl eq_refl).
  vm_compute in H. discriminate H.
Qed.

(** C5, amended.  The loop has no test for the presence of a hand: a
    frame that shows no hand, or no thumb-index fingertip pair, leaves the
    stored distance as it was.  In every pass after the first such a frame
    causes no call of [serial_.write], and the loop goes on unless the
    quit key is pressed; in the very first pass the initial distance 0 is
    sent as level ["ZERO"]. *)
Theorem detection_gap_after_first_pass :
  (forall (ev0 : frame_event) (evs : list frame_event) (st : state) (ev : frame_event),
     loop (ev0 :: evs) initial = (st, None) -> ret ev = true ->
     fingertip_distance (frame ev) = None ->
     line_dist (detector (iteration ev st).1) = line_dist (detector st) /\
     write_calls (serial_ (iteration ev st).1) = write_calls (serial_ st) /\
     last_sent_data (iteration ev st).1 = last_sent_data st /\
     (iteration ev st).2 = (if key_q ev then Some QuitKey else None))
  /\
  (forall ev : frame_event,
     ret ev = true -> fingertip_distance (frame ev) = None ->
     write_calls (serial_ (iteration ev initial).1)
     = [{| data := encode_utf8 ("ZERO" +:+ newline); accepted := device_ok ev |}]).
Proof.
  split.
  - intros ev0 evs st ev Hloop Hret Hgap.
    destruct (in_step_after_first ev0 evs st Hloop) as (name & Hname & Hlast).
    destruct (iteration_run ev st Hret) as (name' & Hn' & _ & ->).
    rewrite (observe_gap _ _ Hgap), Hname in Hn'. inversion Hn'; subst name'.
    rewrite bool_decide_eq_false_2 by (intros Hne; apply Hne; congruence).
    cbn [fst snd detector serial_ last_sent_data].
    rewrite (observe_gap _ _ Hgap). easy.
  - intros ev Hret Hgap.
    destruct (iteration_run ev initial Hret) as (name & Hn & _ & ->).
    rewrite (observe_gap _ _ Hgap) in Hn. vm_compute in Hn. inversion Hn; subst name.
    rewrite bool_decide_eq_true_2 by discriminate.
    destruct (device_ok ev); reflexivity.
Qed.

Lemma detection_gap_after_first_pass_witness :
  (write_calls (serial_ (iteration (pass empty_frame)
                                   (loop [pass (frame_showing 130)] initial).1).1)
   = write_calls (serial_ (loop [pass (frame_showing 130)] initial).1) /\
   (iteration (pass empty_frame) (loop [pass (frame_showing 130)] initial).1).2 = None) /\
  write_calls (serial_ (iteration (pass empty_frame) initial).1)
  = [{| data := encode_utf8 ("ZERO" +:+ newline); accepted := true |}].
Proof.
  split.
  - destruct (proj1 detection_gap_after_first_pass (pass (frame_showing 130)) []
                    (loop [pass (frame_showing 130)] initial).1 (pass empty_frame))
      as (_ & Hw & _ & Hgo); [reflexivity | reflexivity | reflexivity |].
    split; [exact Hw | exact Hgo].
  - apply (proj2 detection_gap_after_first_pass (pass empty_frame)); reflexivity.
Defined.

(** C10.  When the call of [serial_.write] raises, [last_sent_data] keeps
    its value, the loop is left at once and the write is not tried again;
    and whenever a pass changes [last_sent_data], it is to the payload of
    a write that has just returned normally. *)
Theorem write_failure_keeps_record :
  (forall (ev : frame_event) (st : state) (scaled : string) (evs : list frame_event),
     ret ev = true ->
     (scaled_distance (frame ev) (detector st)).2 = Ok scaled ->
     scaled <> last_sent_data st ->
     device_ok ev = false ->
     last_sent_data (iteration ev st).1 = last_sent_data st /\
     write_calls (serial_ (iteration ev st).1)
     = write_calls (serial_ st) ++ [{| data := encode_utf8 scaled; accepted := false |}] /\
     wire (serial_ (iteration ev st).1) = wire (serial_ st) /\
     loop (ev :: evs) st = ((iteration ev st).1, Some SerialError))
  /\
  (forall (ev : frame_event) (st : state),
     last_sent_data (iteration ev st).1 <> last_sent_data st ->
     write_calls (serial_ (iteration ev st).1)
     = write_calls (serial_ st)
         ++ [{| data := encode_utf8 (last_sent_data (iteration ev st).1);
                accepted := true |}]).
Proof.
  split.
  - intros ev st scaled evs Hret Hs Hne Hdev.
    cbn [loop].
    destruct (iteration_run ev st Hret) as (name & _ & Hs' & ->).
    rewrite Hs' in Hs. cbn in Hs. inversion Hs; subst scaled.
    rewrite bool_decide_eq_true_2 by exact Hne. rewrite Hdev.
    cbn [fst snd last_sent_data serial_].
    rewrite wire_app_call, app_nil_r. easy.
  - intros ev st Hch.
    destruct (ret ev) eqn:Hret;
      [|unfold iteration in Hch; rewrite Hret in Hch; now cbn in Hch].
    destruct (iteration_run ev st Hret) as (name & _ & _ & Hrun).
    rewrite Hrun in Hch |- *. clear Hrun.
    destruct (bool_decide _); [|now cbn in Hch].
    destruct (device_ok ev); [reflexivity | now cbn in Hch].
Qed.

Lemma write_failure_keeps_record_witness :
  (last_sent_data (iteration (failing (frame_showing 170))
                             (loop [pass (frame_showing 130)] initial).1).1
   = "THREE" +:+ newline /\
   loop [failing (frame_showing 170); pass (frame_showing 170)]
        (loop [pass (frame_showing 130)] initial).1
   = ((iteration (failing (frame_showing 170))
                 (loop [pass (frame_showing 130)] initial).1).1, Some SerialError)) /\
  write_calls (serial_ (iteration (pass (frame_showing 170))
                                  (loop [pass (frame_showing 130)] initial).1).1)
  = write_calls (serial_ (loop [pass (frame_showing 130)] initial).1)
      ++ [{| data := encode_utf8 ("FOUR" +:+ newline); accepted := true |}].
Proof.
  split.
  - destruct (proj1 write_failure_keeps_record (failing (frame_showing 170))
                    (loop [pass (frame_showing 130)] initial).1
                    ("FOUR" +:+ newline) [pass (frame_showing 170)])
      as (Hl & _ & _ & Hloop); [reflexivity | reflexivity | discriminate | reflexivity |].
    split; [exact Hl | exact Hloop].
  - apply (proj2 write_failure_keeps_record (pass (frame_showing 170))
                 (loop [pass (frame_showing 130)] initial).1).
    discriminate.
Defined.

End ControlLoop.

(** * Further properties *)

(** ** The distance mapper, all levels and all bounds *)
Section DistanceLevels.
Import Py Numpy Hands Spec.
Local Open Scope Q_scope.

Lemma maps_to_level_unique (d : Q) (k : Z) :
  maps_to_level d k -> k = scale_key d 15 200.
Proof.
  intros (name & Hn & Hl).
  destruct (map_distance_to_scale_total d) as (name' & Hn' & _ & Hl').
  unfold min_distance_default, max_distance_default in Hn.
  rewrite Hn in Hn'. inversion Hn'; subst name'. congruence.
Qed.

(** In exact arithmetic the level of a distance is the number of whole steps
    of 37 above 15.  (In binary64 the products are rounded, so this is used
    below only for distances that are square roots of integers, which lie
    well away from the band edges unless they sit on them.) *)
Lemma level_bands_exact (d : Q) (k : Z) :
  maps_to_level d k <->
  (k = 0%Z /\ d < 52) \/ (k = 1%Z /\ 52 <= d /\ d < 89) \/
  (k = 2%Z /\ 89 <= d /\ d < 126) \/ (k = 3%Z /\ 126 <= d /\ d < 163) \/
  (k = 4%Z /\ 163 <= d /\ d < 200) \/ (k = 5%Z /\ 200 <= d).
Proof.
  split.
  - intros Hm. apply maps_to_level_unique in Hm. subst k.
    destruct (scale_key_cases d) as [[H ->] | [[H ->] | (j & Hj & L & U & ->)]].
    + left. split; [reflexivity | lra].
    + do 5 right. easy.
    + assert (Hc : (j = 0 \/ j = 1 \/ j = 2 \/ j = 3 \/ j = 4)%Z) by lia.
      destruct Hc as [-> | [-> | [-> | [-> | ->]]]].
      * left. split; [reflexivity|]. eapply Qlt_le_trans; [exact U | discriminate].
      * right; left. split; [reflexivity|].
        split; [eapply Qle_trans; [|exact L] | eapply Qlt_le_trans; [exact U|]]; discriminate.
      * do 2 right; left. split; [reflexivity|].
        split; [eapply Qle_trans; [|exact L] | eapply Qlt_le_trans; [exact U|]]; discriminate.
      * do 3 right; left. split; [reflexivity|].
        split; [eapply Qle_trans; [|exact L] | eapply Qlt_le_trans; [exact U|]]; discriminate.
      * do 4 right; left. split; [reflexivity|].
        split; [eapply Qle_trans; [|exact L] | eapply Qlt_le_trans; [exact U|]]; discriminate.
  - intros [[-> H] | [[-> [H1 H2]] | [[-> [H1 H2]] | [[-> [H1 H2]] | [[-> [H1 H2]] | [-> H]]]]]].
    + destruct (Qlt_le_dec d 15) as [Hlt|Hge]; [now apply maps_to_level_left|].
      apply (maps_to_level_band d 0%Z); [lia | exact Hge | exact H].
    + apply (maps_to_level_band d 1%Z); [lia | exact H1 | exact H2].
    + apply (maps_to_level_band d 2%Z); [lia | exact H1 | exact H2].
    + apply (maps_to_level_band d 3%Z); [lia | exact H1 | exact H2].
    + apply (maps_to_level_band d 4%Z); [lia | exact H1 | exact H2].
    + now apply maps_to_level_right.
Qed.





End DistanceLevels.

(** ** The choice of the port *)
Section PortChoice.
Import Py Ports.

(** X3.  A port is selected exactly when the description of some available
    port starts with ["COM" + com]; the name selected is then ["COM" + com]
    itself, whichever description matched, and the test of line 49 lets
    the run go on.  Otherwise nothing is selected and the run stops. *)
Theorem select_port_prefix (com : string) (available_ports : list string) :
  ((exists port, port ∈ available_ports /\ String.prefix ("COM" +:+ com) port = true) ->
   select_port com available_ports = Some ("COM" +:+ com) /\
   not_selected (select_port com available_ports) = false) /\
  ((forall port, port ∈ available_ports -> String.prefix ("COM" +:+ com) port = false) ->
   select_port com available_ports = None /\
   not_selected (select_port com available_ports) = true).
Proof.
  induction available_ports as [|p ports [IHyes IHno]]; split.
  - intros (port & Hin & _). inversion Hin.
  - intros _. split; reflexivity.
  - intros (port & Hin & Hp). cbn [select_port].
    destruct (String.prefix ("COM" +:+ com) p) eqn:E; [split; reflexivity|].
    apply elem_of_cons in Hin as [-> | Hin]; [congruence|].
    apply IHyes. eauto.
  - intros Hall. cbn [select_port].
    rewrite (Hall p) by apply list_elem_of_here.
    apply IHno. intros port Hin. apply Hall. now apply list_elem_of_further.
Qed.

Lemma select_port_prefix_witness :
  select_port "1" ["COM10 - USB Serial Device (COM10)"] = Some "COM1" /\
  select_port "9" ["COM2 - USB Serial"; "COM10 - USB Serial Device (COM10)"] = None.
Proof.
  split.
  - apply (proj1 (select_port_prefix "1" ["COM10 - USB Serial Device (COM10)"])).
    exists "COM10 - USB Serial Device (COM10)". split; [apply list_elem_of_here | reflexivity].
  - apply (proj2 (select_port_prefix "9" ["COM2 - USB Serial"; "COM10 - USB Serial Device (COM10)"])).
    intros port Hin. rewrite !elem_of_cons, elem_of_nil in Hin.
    destruct Hin as [-> | [-> | []]]; reflexivity.
Defined.

End PortChoice.

(** ** Finger positions, hand by hand *)
Section FingerOrder.
Import Py Numpy Hands Spec Readings Script.

Lemma finger_points_cases (finger : string) (points : list nat) :
  finger_points finger = Some points ->
  points = [2; 3; 4]%nat \/ points = [5; 6; 7; 8]%nat \/ points = [9; 10; 11; 12]%nat \/
  points = [13; 14; 15; 16]%nat \/ points = [17; 18; 19; 20]%nat.
Proof.
  unfold finger_points.
  repeat (destruct (String.eqb finger _); [intros H; inversion H; tauto|]).
  discriminate.
Qed.

(** On a hand of 21 landmarks the positions of a finger are its landmarks in
    index order. *)
Lemma hand_positions_pixels_at (h w : Z) (finger : string) (points : list nat)
      (i : hand_landmarks) :
  finger_points finger = Some points -> length i = 21%nat ->
  hand_positions h w points i = pixels_at h w points i.
Proof.
  intros Hp Hl. apply finger_points_cases in Hp.
  do 21 (destruct i as [|? i]; [discriminate Hl|]).
  destruct i; [|discriminate Hl].
  destruct Hp as [-> | [-> | [-> | [-> | ->]]]]; reflexivity.
Qed.

Lemma pixels_at_length (h w : Z) (finger : string) (points : list nat)
      (i : hand_landmarks) :
  finger_points finger = Some points -> length i = 21%nat ->
  length (pixels_at h w points i) = length points.
Proof.
  intros Hp Hl. apply finger_points_cases in Hp.
  do 21 (destruct i as [|? i]; [discriminate Hl|]).
  destruct Hp as [-> | [-> | [-> | [-> | ->]]]]; reflexivity.
Qed.

Lemma flat_map_pixels_at (h w : Z) (finger : string) (points : list nat)
      (hands : list hand_landmarks) :
  finger_points finger = Some points ->
  Forall (fun i => length i = 21%nat) hands ->
  flat_map (hand_positions h w points) hands = flat_map (pixels_at h w points) hands /\
  length (flat_map (pixels_at h w points) hands) = (length points * length hands)%nat.
Proof.
  intros Hp Hall. induction Hall as [|i hands Hi Hall [IH1 IH2]]; [split; [reflexivity | simpl; lia]|].
  cbn [flat_map]. rewrite IH1, (hand_positions_pixels_at _ _ _ _ _ Hp Hi). split; [reflexivity|].
  rewrite length_app, IH2, (pixels_at_length _ _ _ _ _ Hp Hi). cbn [length]. lia.
Qed.

(** X4.  When every detected hand has its 21 landmarks, [get_finger] with a
    finger name returns the pixel positions of that finger's landmarks in
    index order, one hand after the other: as many positions as the finger
    has landmarks, times the number of hands. *)
Theorem get_finger_landmarks_in_order (self : Hand) (img : image) (finger : string)
        (points : list nat) :
  finger_points finger = Some points ->
  hands_of (detection self img) <> [] ->
  Forall (fun i => length i = 21%nat) (hands_of (detection self img)) ->
  exists ps : list (Z * Z),
    (get_finger img finger self).2 = Ok (Finger (Some ps)) /\
    ps = flat_map (pixels_at (shape img).1 (shape img).2 points) (hands_of (detection self img)) /\
    length ps = (length points * length (hands_of (detection self img)))%nat.
Proof.
  intros Hp Hne Hall.
  destruct (flat_map_pixels_at (shape img).1 (shape img).2 finger points _ Hp Hall) as [He Hlen].
  rewrite (get_finger_known _ _ _ _ Hp). cbn [snd]. unfold positions_in. rewrite He.
  assert (Hpos : (0 < length (flat_map (pixels_at (shape img).1 (shape img).2 points)
                                      (hands_of (detection self img))))%nat).
  { rewrite Hlen. apply finger_points_cases in Hp.
    destruct (hands_of (detection self img)); [congruence|].
    destruct Hp as [-> | [-> | [-> | [-> | ->]]]]; cbn [length]; lia. }
  remember (flat_map (pixels_at (shape img).1 (shape img).2 points)
                     (hands_of (detection self img))) as ps eqn:E.
  destruct ps as [|p ps]; [cbn in Hpos; lia|].
  eexists. split; [reflexivity|]. split; [reflexivity | exact Hlen].
Qed.

Lemma get_finger_landmarks_in_order_witness :
  exists ps : list (Z * Z),
    (get_finger (frame_showing 130) "index" init).2 = Ok (Finger (Some ps)) /\
    ps = flat_map (pixels_at 1000 1000 [5; 6; 7; 8]%nat) [hand_spanning 130] /\
    length ps = 4%nat.
Proof.
  apply (get_finger_landmarks_in_order init (frame_showing 130) "index" [5; 6; 7; 8]%nat).
  - reflexivity.
  - discriminate.
  - repeat constructor.
Defined.

End FingerOrder.

(** ** [draw_line] with any two finger names *)
Section DrawLine.
Import Py Numpy Hands Spec Readings Script.

Lemma fingertip_no_hands (r : SolutionOutputs) (img : image) (points : list nat) :
  hands_of r = [] -> fingertip r img points = None.
Proof. intros H. unfold fingertip, positions_in. now rewrite H. Qed.

Lemma draw_line_loop_known (self : Hand) (img : image) (finger1 finger2 : string)
      (pts1 pts2 : list nat) (draw : bool) (hands : list hand_landmarks) :
  finger_points finger1 = Some pts1 -> finger_points finger2 = Some pts2 ->
  hands <> [] ->
  draw_line_loop img finger1 finger2 draw hands (cached self img)
  = match fingertip (detection self img) img pts1, fingertip (detection self img) img pts2 with
    | Some p1, Some p2 =>
        ({| results := Some (detection self img);
            line_dist := hypot (p1.1 - p2.1) (p1.2 - p2.2) |},
         Ok (if draw then Drawn img
             else measured p1 p2 (hypot (p1.1 - p2.1) (p1.2 - p2.2))))
    | _, _ => (cached self img, Ok NoneNone)
    end.
Proof.
  intros H1 H2. induction hands as [|i hands IH]; [congruence|]. intros _.
  cbn [draw_line_loop]. unfold mbind at 1, M_bind at 1.
  rewrite (tip_of_known _ _ _ _ H1).
  unfold mbind at 1, M_bind at 1.
  rewrite (tip_of_known _ _ _ _ H2).
  rewrite !cached_cached, !detection_cached.
  destruct (fingertip (detection self img) img pts1) as [p1|] eqn:E1;
    destruct (fingertip (detection self img) img pts2) as [p2|] eqn:E2; cbn;
    try (destruct draw; reflexivity);
    (destruct hands as [|i' hands']; [reflexivity|]);
    rewrite IH by congruence; reflexivity.
Qed.

Lemma draw_line_known (self : Hand) (img : image) (finger1 finger2 : string)
      (pts1 pts2 : list nat) (draw : bool) :
  finger_points finger1 = Some pts1 -> finger_points finger2 = Some pts2 ->
  draw_line img finger1 finger2 draw self
  = match fingertip (detection self img) img pts1, fingertip (detection self img) img pts2 with
    | Some p1, Some p2 =>
        ({| results := Some (detection self img);
            line_dist := hypot (p1.1 - p2.1) (p1.2 - p2.2) |},
         Ok (if draw then Drawn img
             else measured p1 p2 (hypot (p1.1 - p2.1) (p1.2 - p2.2))))
    | _, _ => (cached self img, Ok NoneNone)
    end.
Proof.
  intros H1 H2. unfold draw_line, mbind, M_bind. rewrite ensure_results_run.
  destruct (hands_of (detection self img)) as [|i hands] eqn:E.
  - now rewrite (fingertip_no_hands _ _ pts1 E).
  - rewrite (draw_line_loop_known _ _ _ _ _ _ _ _ H1 H2) by discriminate. reflexivity.
Qed.

(** The fingertip of a finger is the last landmark of the finger on the
    last detected hand. *)
Lemma fingertip_last_hand (r : SolutionOutputs) (img : image) (finger : string)
      (points : list nat) (hs : list hand_landmarks) (i : hand_landmarks) :
  finger_points finger = Some points ->
  hands_of r = hs ++ [i] -> length i = 21%nat ->
  fingertip r img points = last (pixels_at (shape img).1 (shape img).2 points i) /\
  is_Some (fingertip r img points).
Proof.
  intros Hp Hh Hl. unfold fingertip, positions_in. rewrite Hh, flat_map_app. cbn [flat_map].
  rewrite app_nil_r, (hand_positions_pixels_at _ _ _ _ _ Hp Hl).
  pose proof (pixels_at_length (shape img).1 (shape img).2 _ _ _ Hp Hl) as Hlen.
  apply finger_points_cases in Hp.
  assert (Hne : pixels_at (shape img).1 (shape img).2 points i <> []).
  { intros E. rewrite E in Hlen.
    destruct Hp as [-> | [-> | [-> | [-> | ->]]]]; discriminate Hlen. }
  destruct (exists_last Hne) as (qs & q & ->).
  rewrite app_assoc.
  destruct (_ ++ [q]) as [|a l] eqn:E'; [now destruct (_ ++ qs)|].
  cbn [mbind option_bind]. rewrite <- E', !last_snoc. split; [reflexivity | eauto].
Qed.

Lemma hypot_swap (a b c d : Z) : hypot (a - b) (c - d) = hypot (b - a) (d - c).
Proof. unfold hypot. do 3 f_equal. ring. Qed.

(** X5.  With several hands in view, [draw_line] measures the last detected
    hand: the distance it stores is the one between the pixel positions of
    landmark 4 (thumb tip) and landmark 8 (index tip) of that hand, and with
    [draw=False] it returns these two positions around their midpoint,
    together with that distance. *)
Theorem draw_line_measures_last_hand (self : Hand) (img : image)
        (hs : list hand_landmarks) (i : hand_landmarks) (t x : landmark) (draw : bool) :
  hands_of (detection self img) = hs ++ [i] -> length i = 21%nat ->
  i !! 4%nat = Some t -> i !! 8%nat = Some x ->
  draw_line img "thumb" "index" draw self
  = ({| results := Some (detection self img);
        line_dist := hypot ((absolute (shape img).1 (shape img).2 t).1
                            - (absolute (shape img).1 (shape img).2 x).1)
                           ((absolute (shape img).1 (shape img).2 t).2
                            - (absolute (shape img).1 (shape img).2 x).2) |},
     Ok (if draw then Drawn img
         else measured (absolute (shape img).1 (shape img).2 t)
                       (absolute (shape img).1 (shape img).2 x)
                       (hypot ((absolute (shape img).1 (shape img).2 t).1
                               - (absolute (shape img).1 (shape img).2 x).1)
                              ((absolute (shape img).1 (shape img).2 t).2
                               - (absolute (shape img).1 (shape img).2 x).2)))).
Proof.
  intros Hh Hl Ht Hx.
  rewrite (draw_line_known _ _ "thumb" "index" [2; 3; 4]%nat [5; 6; 7; 8]%nat draw eq_refl eq_refl).
  destruct (fingertip_last_hand _ img "thumb" _ hs i eq_refl Hh Hl) as [-> _].
  destruct (fingertip_last_hand _ img "index" _ hs i eq_refl Hh Hl) as [-> _].
  do 21 (destruct i as [|? i]; [discriminate Hl|]).
  cbn in Ht, Hx. inversion Ht; inversion Hx; subst. reflexivity.
Qed.

Lemma draw_line_measures_last_hand_witness :
  line_dist (draw_line (frame_showing 205) "thumb" "index" false init).1 = hypot (0 - 205) (0 - 0).
Proof.
  rewrite (draw_line_measures_last_hand init (frame_showing 205) [] (hand_spanning 205)
             (at_pixel 0 0) (at_pixel 205 0) false eq_refl eq_refl eq_refl eq_refl).
  reflexivity.
Defined.

(** X6.  With two known finger names and [draw=False], whenever [draw_line]
    returns points, they are the two fingertips with a middle point that
    lies between them on each axis, and the distance returned is the one
    just stored in [line_dist]. *)
Theorem draw_line_returns_midpoint (self self' : Hand) (img : image)
        (finger1 finger2 : string) (pts1 pts2 : list nat)
        (pts : list (Z * Z)) (dist : Q) :
  finger_points finger1 = Some pts1 -> finger_points finger2 = Some pts2 ->
  draw_line img finger1 finger2 false self = (self', Ok (Measured pts dist)) ->
  exists p1 m p2 : Z * Z,
    pts = [p1; m; p2] /\
    fingertip (detection self img) img pts1 = Some p1 /\
    fingertip (detection self img) img pts2 = Some p2 /\
    dist = line_dist self' /\
    Z.min p1.1 p2.1 <= m.1 <= Z.max p1.1 p2.1 /\
    Z.min p1.2 p2.2 <= m.2 <= Z.max p1.2 p2.2.
Proof.
  intros H1 H2. rewrite (draw_line_known _ _ _ _ _ _ _ H1 H2).
  destruct (fingertip (detection self img) img pts1) as [p1|];
    [|intros H; inversion H].
  destruct (fingertip (detection self img) img pts2) as [p2|];
    [|intros H; inversion H].
  unfold measured. intros H. inversion H; subst.
  eexists _, _, _. repeat split; cbn [fst snd];
    try (apply Z.div_le_lower_bound; lia);
    try (apply Z.div_le_upper_bound; lia).
Qed.

Lemma draw_line_returns_midpoint_witness :
  exists p1 m p2 : Z * Z,
    [(0, 0); (25, 0); (50, 0)] = [p1; m; p2] /\
    fingertip (detection init (frame_showing 50)) (frame_showing 50) [2; 3; 4]%nat = Some p1 /\
    fingertip (detection init (frame_showing 50)) (frame_showing 50) [5; 6; 7; 8]%nat = Some p2 /\
    hypot (0 - 50) (0 - 0) = hypot (0 - 50) (0 - 0) /\
    Z.min p1.1 p2.1 <= m.1 <= Z.max p1.1 p2.1 /\
    Z.min p1.2 p2.2 <= m.2 <= Z.max p1.2 p2.2.
Proof.
  apply (draw_line_returns_midpoint init
           {| results := Some (process (frame_showing 50)); line_dist := hypot (0 - 50) (0 - 0) |}
           (frame_showing 50) "thumb" "index" [2; 3; 4]%nat [5; 6; 7; 8]%nat);
    reflexivity.
Defined.

(** X7.  The distance [draw_line] stores does not depend on the order of the
    two finger names. *)
Theorem draw_line_symmetric (self : Hand) (img : image) (finger1 finger2 : string)
        (pts1 pts2 : list nat) (draw : bool) :
  finger_points finger1 = Some pts1 -> finger_points finger2 = Some pts2 ->
  line_dist (draw_line img finger1 finger2 draw self).1
  = line_dist (draw_line img finger2 finger1 draw self).1.
Proof.
  intros H1 H2.
  rewrite (draw_line_known _ _ _ _ _ _ draw H1 H2), (draw_line_known _ _ _ _ _ _ draw H2 H1).
  destruct (fingertip (detection self img) img pts1) as [p1|];
    destruct (fingertip (detection self img) img pts2) as [p2|]; try reflexivity.
  cbn [fst line_dist]. apply hypot_swap.
Qed.

Lemma draw_line_symmetric_witness :
  line_dist (draw_line (frame_showing 130) "middle" "index" true init).1
  = line_dist (draw_line (frame_showing 130) "index" "middle" true init).1.
Proof.
  apply (draw_line_symmetric init (frame_showing 130) "middle" "index"
           [9; 10; 11; 12]%nat [5; 6; 7; 8]%nat true); reflexivity.
Defined.

Lemma tip_of_unknown (self : Hand) (img : image) (finger : string) :
  finger_points finger = None ->
  tip_of img finger self
  = (cached self img,
     Ok (match positions_in (detection self img) img [17; 18; 19; 20]%nat with
         | Some ps => TipList ps
         | None => TipNone
         end)).
Proof.
  intros Hp. unfold tip_of, mbind, M_bind.
  rewrite (get_finger_unknown _ _ _ Hp). cbn [truthy fmap list_fmap].
  rewrite (get_finger_unknown _ _ _ Hp), cached_cached, detection_cached.
  reflexivity.
Qed.

(** X8.  [draw_line] called with a name that is not a finger name, on a
    detection whose last hand has its 21 landmarks, raises [TypeError] and
    leaves [line_dist] as it was. *)
Theorem draw_line_unknown_finger_raises (self : Hand) (img : image)
        (finger1 finger2 : string) (draw : bool)
        (hs : list hand_landmarks) (i : hand_landmarks) :
  finger_points finger1 = None \/ finger_points finger2 = None ->
  hands_of (detection self img) = hs ++ [i] -> length i = 21%nat ->
  draw_line img finger1 finger2 draw self = (cached self img, Raise TypeError).
Proof.
  intros Hunk Hh Hl.
  assert (Htip : forall finger points, finger_points finger = Some points ->
            exists p, fingertip (detection self img) img points = Some p).
  { intros finger points Hp.
    destruct (fingertip_last_hand _ img finger points hs i Hp Hh Hl) as [_ [p Hs]]. eauto. }
  assert (Hpinky : exists p ps,
            positions_in (detection self img) img [17; 18; 19; 20]%nat = Some (p :: ps)).
  { destruct (Htip "pinky" _ eq_refl) as (p & Hp). unfold fingertip in Hp.
    destruct (positions_in _ _ _) as [[|q qs]|] eqn:E; try discriminate Hp. eauto. }
  destruct Hpinky as (q & qs & Hq).
  unfold draw_line, mbind at 1, M_bind at 1. rewrite ensure_results_run, Hh.
  destruct (hs ++ [i]) as [|i0 hands] eqn:E; [now destruct hs|].
  cbn [draw_line_loop]. unfold mbind at 1, M_bind at 1.
  destruct (finger_points finger1) as [pts1|] eqn:E1;
    destruct (finger_points finger2) as [pts2|] eqn:E2.
  - destruct Hunk; discriminate.
  - rewrite (tip_of_known _ _ _ _ E1). unfold mbind at 1, M_bind at 1.
    rewrite (tip_of_unknown _ _ _ E2), !cached_cached, !detection_cached, Hq.
    destruct (Htip _ _ E1) as (p & ->). reflexivity.
  - rewrite (tip_of_unknown _ _ _ E1). unfold mbind at 1, M_bind at 1.
    rewrite (tip_of_known _ _ _ _ E2), !cached_cached, !detection_cached, Hq.
    destruct (Htip _ _ E2) as (p & ->). reflexivity.
  - rewrite (tip_of_unknown _ _ _ E1). unfold mbind at 1, M_bind at 1.
    rewrite (tip_of_unknown _ _ _ E2), !cached_cached, !detection_cached, Hq.
    reflexivity.
Qed.

Lemma draw_line_unknown_finger_raises_witness :
  draw_line (frame_showing 130) "thumb" "palm" true init
  = (cached init (frame_showing 130), Raise TypeError).
Proof.
  apply (draw_line_unknown_finger_raises init (frame_showing 130) "thumb" "palm" true
           [] (hand_spanning 130)); [right|..]; reflexivity.
Defined.

End DrawLine.

(** ** The cached detection *)
Section CachedDetection.
Import Py Numpy Hands Spec Readings Script.

Lemma positions_in_shape (r : SolutionOutputs) (img img' : image) (points : list nat) :
  shape img = shape img' -> positions_in r img points = positions_in r img' points.
Proof. intros H. unfold positions_in. now rewrite H. Qed.

(** X9.  [get_finger] reads the detection cached on the detector whenever
    there is one: given two images of the same shape it returns the same
    positions, whatever hands the images show.  Only [get_hand] replaces the
    detection: right after [get_hand(img)], the answer is that of a fresh
    detector looking at [img]. *)
Theorem get_finger_reads_cached_detection :
  (forall (self : Hand) (r : SolutionOutputs) (img img' : image) (finger : string),
     results self = Some r -> shape img = shape img' ->
     get_finger img finger self = get_finger img' finger self) /\
  (forall (self : Hand) (img : image) (finger : string),
     (get_finger img finger (get_hand img self).1).2 = (get_finger img finger init).2).
Proof.
  split.
  - intros self r img img' finger Hr Hs.
    assert (Hd : detection self img = detection self img')
      by (unfold detection; now rewrite Hr).
    assert (Hc : cached self img = cached self img')
      by (unfold cached; now rewrite Hd).
    destruct (finger_points finger) as [points|] eqn:Hp.
    + rewrite !(get_finger_known _ _ _ _ Hp), Hc, Hd.
      now rewrite (positions_in_shape _ img img' _ Hs).
    + rewrite !(get_finger_unknown _ _ _ Hp), Hc, Hd. cbn [fmap list_fmap].
      now rewrite !(positions_in_shape _ img img' _ Hs).
  - intros self img finger.
    destruct (finger_points finger) as [points|] eqn:Hp.
    + now rewrite !(get_finger_known _ _ _ _ Hp).
    + now rewrite !(get_finger_unknown _ _ _ Hp).
Qed.

Lemma get_finger_reads_cached_detection_witness :
  get_finger {| shape := (1000, 1000); in_view := None |} "index"
             (get_hand (frame_showing 130) init).1
  = get_finger (frame_showing 50) "index" (get_hand (frame_showing 130) init).1.
Proof.
  apply (proj1 get_finger_reads_cached_detection
               (get_hand (frame_showing 130) init).1 (process (frame_showing 130)));
    reflexivity.
Defined.

End CachedDetection.

(** ** Counting extended fingers *)
Section CountingFingers.
Import Py Numpy Hands Spec Readings Script.

Lemma item_neg_snoc2 {A : Type} (l : list A) (a b : A) :
  item_neg (l ++ [a; b]) 1 = Ok b /\ item_neg (l ++ [a; b]) 2 = Ok a.
Proof.
  unfold item_neg, item. rewrite length_app. cbn [length].
  split.
  - destruct (decide _) as [_|]; [|lia].
    rewrite lookup_app_r by lia.
    replace (length l + 2 - 1 - length l)%nat with 1%nat by lia. reflexivity.
  - destruct (decide _) as [_|]; [|lia].
    rewrite lookup_app_r by lia.
    replace (length l + 2 - 2 - length l)%nat with 0%nat by lia. reflexivity.
Qed.

(** On a detection whose last hand has 21 landmarks, the comparison for a
    finger reads the tip and the joint below it on that hand. *)
Lemma tip_beyond_joint_last_hand (r : SolutionOutputs) (img : image)
      (hs : list hand_landmarks) (i : hand_landmarks) (f tip joint : nat) :
  hands_of r = hs ++ [i] -> length i = 21%nat ->
  (f, tip, joint) ∈ [(0, 4, 3); (1, 8, 7); (2, 12, 11); (3, 16, 15); (4, 20, 19)]%nat ->
  tip_beyond_joint
    (AllFingers (positions_in r img <$>
                   [[2; 3; 4]; [5; 6; 7; 8]; [9; 10; 11; 12];
                    [13; 14; 15; 16]; [17; 18; 19; 20]]%nat)) f
  = Ok (extended (shape img).1 (shape img).2 i tip joint).
Proof.
  intros Hh Hl Hin.
  assert (Hpos : forall finger points, finger_points finger = Some points ->
            positions_in r img points
            = Some (flat_map (hand_positions (shape img).1 (shape img).2 points) hs
                      ++ pixels_at (shape img).1 (shape img).2 points i)).
  { intros finger points Hp. unfold positions_in.
    rewrite Hh, flat_map_app. cbn [flat_map].
    rewrite app_nil_r, (hand_positions_pixels_at _ _ _ _ _ Hp Hl).
    pose proof (pixels_at_length (shape img).1 (shape img).2 _ _ _ Hp Hl) as Hlen.
    apply finger_points_cases in Hp.
    remember (flat_map (hand_positions (shape img).1 (shape img).2 points) hs
                ++ pixels_at (shape img).1 (shape img).2 points i) as ps eqn:E.
    destruct ps; [|reflexivity].
    symmetry in E. apply app_eq_nil in E as [_ E]. rewrite E in Hlen.
    destruct Hp as [-> | [-> | [-> | [-> | ->]]]]; discriminate Hlen. }
  do 21 (destruct i as [|? i]; [discriminate Hl|]).
  destruct i; [|discriminate Hl].
  rewrite !elem_of_cons, elem_of_nil in Hin.
  destruct Hin as [Hin | [Hin | [Hin | [Hin | [Hin | []]]]]]; inversion Hin; subst;
    cbn [tip_beyond_joint fmap list_fmap item lookup list_lookup mbind result_bind].
  - rewrite (Hpos "thumb" _ eq_refl).
    change (pixels_at _ _ [2; 3; 4]%nat _) with
      ([absolute (shape img).1 (shape img).2 l1]
         ++ [absolute (shape img).1 (shape img).2 l2; absolute (shape img).1 (shape img).2 l3]).
    rewrite app_assoc.
    destruct (item_neg_snoc2 (flat_map (hand_positions (shape img).1 (shape img).2 [2; 3; 4]%nat) hs
                                ++ [absolute (shape img).1 (shape img).2 l1])
                             (absolute (shape img).1 (shape img).2 l2)
                             (absolute (shape img).1 (shape img).2 l3)) as [-> ->].
    reflexivity.
  - rewrite (Hpos "index" _ eq_refl).
    change (pixels_at _ _ [5; 6; 7; 8]%nat _) with
      ([absolute (shape img).1 (shape img).2 l4; absolute (shape img).1 (shape img).2 l5]
         ++ [absolute (shape img).1 (shape img).2 l6; absolute (shape img).1 (shape img).2 l7]).
    rewrite app_assoc.
    match goal with
    | |- context [item_neg (?l ++ [?a; ?b]) 1] => destruct (item_neg_snoc2 l a b) as [-> ->]
    end.
    reflexivity.
  - rewrite (Hpos "middle" _ eq_refl).
    change (pixels_at _ _ [9; 10; 11; 12]%nat _) with
      ([absolute (shape img).1 (shape img).2 l8; absolute (shape img).1 (shape img).2 l9]
         ++ [absolute (shape img).1 (shape img).2 l10; absolute (shape img).1 (shape img).2 l11]).
    rewrite app_assoc.
    match goal with
    | |- context [item_neg (?l ++ [?a; ?b]) 1] => destruct (item_neg_snoc2 l a b) as [-> ->]
    end.
    reflexivity.
  - rewrite (Hpos "ring" _ eq_refl).
    change (pixels_at _ _ [13; 14; 15; 16]%nat _) with
      ([absolute (shape img).1 (shape img).2 l12; absolute (shape img).1 (shape img).2 l13]
         ++ [absolute (shape img).1 (shape img).2 l14; absolute (shape img).1 (shape img).2 l15]).
    rewrite app_assoc.
    match goal with
    | |- context [item_neg (?l ++ [?a; ?b]) 1] => destruct (item_neg_snoc2 l a b) as [-> ->]
    end.
    reflexivity.
  - rewrite (Hpos "pinky" _ eq_refl).
    change (pixels_at _ _ [17; 18; 19; 20]%nat _) with
      ([absolute (shape img).1 (shape img).2 l16; absolute (shape img).1 (shape img).2 l17]
         ++ [absolute (shape img).1 (shape img).2 l18; absolute (shape img).1 (shape img).2 l19]).
    rewrite app_assoc.
    match goal with
    | |- context [item_neg (?l ++ [?a; ?b]) 1] => destruct (item_neg_snoc2 l a b) as [-> ->]
    end.
    reflexivity.
Qed.

(** X10.  On a detection whose last hand has its 21 landmarks,
    [finger_count] returns the name of the number of fingers of that hand
    whose tip pixel lies to the right of the pixel of the joint below it
    (landmarks 8/7, 12/11, 16/15, 20/19 and 4/3); the hands detected before
    the last one do not count. *)
Theorem finger_count_counts_last_hand (self : Hand) (img : image)
        (hs : list hand_landmarks) (i : hand_landmarks) :
  hands_of (detection self img) = hs ++ [i] -> length i = 21%nat ->
  exists name : string,
    (finger_count img self).2 = Ok name /\
    mapping !! extension_count (shape img).1 (shape img).2 i = Some name.
Proof.
  intros Hh Hl.
  unfold finger_count, mbind at 1, M_bind at 1.
  rewrite (get_finger_unknown _ _ "" eq_refl).
  set (points := AllFingers _). cbn [truthy fmap list_fmap points].
  assert (Hv : forall f tip joint c,
            (f, tip, joint) ∈ [(0, 4, 3); (1, 8, 7); (2, 12, 11); (3, 16, 15); (4, 20, 19)]%nat ->
            vote points f c
            = Ok (if extended (shape img).1 (shape img).2 i tip joint then c + 1 else c)).
  { intros f tip joint c Hin. unfold vote, points.
    now rewrite (tip_beyond_joint_last_hand _ img hs i f tip joint Hh Hl Hin). }
  unfold mbind at 1, M_bind at 1, lift at 1.
  rewrite (Hv 1%nat 8%nat 7%nat) by (rewrite !elem_of_cons; tauto).
  cbn [mbind result_bind].
  rewrite (Hv 2%nat 12%nat 11%nat) by (rewrite !elem_of_cons; tauto).
  cbn [mbind result_bind].
  rewrite (Hv 3%nat 16%nat 15%nat) by (rewrite !elem_of_cons; tauto).
  cbn [mbind result_bind].
  rewrite (Hv 4%nat 20%nat 19%nat) by (rewrite !elem_of_cons; tauto).
  cbn [mbind result_bind].
  rewrite (Hv 0%nat 4%nat 3%nat) by (rewrite !elem_of_cons; tauto).
  unfold extension_count. unfold lift. cbn [snd List.filter].
  destruct (extended _ _ i 8 7); destruct (extended _ _ i 12 11);
    destruct (extended _ _ i 16 15); destruct (extended _ _ i 20 19);
    destruct (extended _ _ i 4 3); eexists; split; reflexivity.
Qed.

Lemma finger_count_counts_last_hand_witness :
  exists name : string,
    (finger_count two_up init).2 = Ok name /\
    mapping !! extension_count 1000 1000
      ((fun point => if decide (point = 8%nat \/ point = 12%nat)
                     then at_pixel 30 0 else at_pixel 0 0) <$> seq 0 21) = Some name.
Proof.
  apply (finger_count_counts_last_hand init two_up []); reflexivity.
Defined.

End CountingFingers.

(** ** The loop as a whole *)
Section WholeLoop.
Import Py Numpy Hands Runner Spec Readings Script.

Lemma write_calls_iteration (ev : frame_event) (st : state) :
  (write_calls (serial_ (iteration ev st).1) = write_calls (serial_ st) /\
   (iteration ev st).2 <> Some SerialError) \/
  (exists c, write_calls (serial_ (iteration ev st).1) = write_calls (serial_ st) ++ [c] /\
             accepted c = true /\ (iteration ev st).2 <> Some SerialError) \/
  (exists c, write_calls (serial_ (iteration ev st).1) = write_calls (serial_ st) ++ [c] /\
             accepted c = false /\ (iteration ev st).2 = Some SerialError).
Proof.
  destruct (ret ev) eqn:Hret;
    [|left; unfold iteration; rewrite Hret; split; [reflexivity | discriminate]].
  destruct (iteration_run ev st Hret) as (name & _ & _ & ->).
  unfold show_and_poll.
  destruct (bool_decide _);
    [|left; split; [reflexivity | destruct (key_q ev); discriminate]].
  right. destruct (device_ok ev).
  - left. eexists. split; [reflexivity|]. split; [reflexivity|].
    destruct (key_q ev); discriminate.
  - right. eexists. split; [reflexivity|]. split; reflexivity.
Qed.

(** X13.  The loop makes at most one call of [serial_.write] per frame. *)
Theorem at_most_one_write_per_frame (evs : list frame_event) (st : state) :
  (length (write_calls (serial_ (loop evs st).1))
   <= length (write_calls (serial_ st)) + length evs)%nat.
Proof.
  revert st. induction evs as [|ev evs IH]; intros st; [cbn; lia|].
  cbn [loop length].
  assert (Hstep : (length (write_calls (serial_ (iteration ev st).1))
                   <= S (length (write_calls (serial_ st))))%nat).
  { destruct (write_calls_iteration ev st) as [[-> _] | [(c & -> & _) | (c & -> & _)]];
      [lia | rewrite length_app; cbn; lia | rewrite length_app; cbn; lia]. }
  destruct (iteration ev st) as [st1 [why|]]; cbn [fst] in *; [lia|].
  specialize (IH st1). lia.
Qed.

(** X14.  A refused write is the last thing the loop does: when the loop is
    left on a serial error, the last call of [write] is the refused one and
    every call before it was accepted; in every other case all calls were
    accepted. *)
Theorem refused_write_is_last (evs : list frame_event) (st : state) (why : option exit) :
  loop evs initial = (st, why) ->
  (why = Some SerialError ->
   exists cs c, write_calls (serial_ st) = cs ++ [c] /\
                Forall (fun c => accepted c = true) cs /\ accepted c = false) /\
  (why <> Some SerialError ->
   Forall (fun c => accepted c = true) (write_calls (serial_ st))).
Proof.
  assert (Hgen : forall evs st0 st why,
            Forall (fun c => accepted c = true) (write_calls (serial_ st0)) ->
            loop evs st0 = (st, why) ->
            (why = Some SerialError ->
             exists cs c, write_calls (serial_ st) = cs ++ [c] /\
                          Forall (fun c => accepted c = true) cs /\ accepted c = false) /\
            (why <> Some SerialError ->
             Forall (fun c => accepted c = true) (write_calls (serial_ st)))).
  { clear. induction evs as [|ev evs IH]; intros st0 st why Hall Hl.
    - cbn in Hl. inversion Hl; subst. split; [discriminate | intros _; exact Hall].
    - cbn [loop] in Hl.
      pose proof (write_calls_iteration ev st0) as Hw.
      destruct (iteration ev st0) as [st1 [why1|]] eqn:Hit; cbn [fst snd] in Hw.
      + inversion Hl; subst.
        destruct Hw as [[-> Hne] | [(c & -> & Hc & Hne) | (c & -> & Hc & He)]].
        * split; [intros E; congruence | intros _; exact Hall].
        * split; [intros E; congruence|]. intros _. apply Forall_app. split; [exact Hall|].
          now apply Forall_singleton.
        * split; [intros _; eauto | intros E; congruence].
      + apply (IH st1 st why); [|exact Hl].
        destruct Hw as [[-> _] | [(c & -> & Hc & _) | (c & _ & _ & He)]];
          [exact Hall | | discriminate He].
        apply Forall_app. split; [exact Hall | now apply Forall_singleton]. }
  intros Hl. apply (Hgen evs initial st why); [constructor | exact Hl].
Qed.

Lemma refused_write_is_last_witness :
  exists cs c,
    write_calls (serial_ (loop [pass (frame_showing 130); failing (frame_showing 170);
                                pass (frame_showing 170)] initial).1) = cs ++ [c] /\
    Forall (fun c => accepted c = true) cs /\ accepted c = false.
Proof.
  apply (proj1 (refused_write_is_last
                  [pass (frame_showing 130); failing (frame_showing 170);
                   pass (frame_showing 170)] _ _ eq_refl)).
  reflexivity.
Defined.

Lemma lookup_snoc_pair {A : Type} (l : list A) (p a b : A) (k : nat) :
  (l ++ [p]) !! k = Some a -> (l ++ [p]) !! S k = Some b ->
  (l !! k = Some a /\ l !! S k = Some b) \/ (last l = Some a /\ b = p).
Proof.
  intros Ha Hb.
  assert (Hk : (S k < length (l ++ [p]))%nat) by (apply lookup_lt_is_Some; eauto).
  rewrite length_app in Hk. cbn in Hk.
  destruct (decide (S k < length l)%nat) as [Hlt|Hge].
  - left. rewrite lookup_app_l in Ha by lia. rewrite lookup_app_l in Hb by lia. easy.
  - right. assert (Hk' : S k = length l) by lia.
    rewrite lookup_app_l in Ha by lia.
    rewrite lookup_app_r in Hb by lia. rewrite Hk', Nat.sub_diag in Hb. cbn in Hb.
    split; [|congruence]. rewrite last_lookup. rewrite <- Hk'. exact Ha.
Qed.

(** X15.  No two consecutive payloads on the wire are equal, whatever the
    frames, the device and the keyboard do. *)
Theorem wire_never_repeats (evs : list frame_event) (k : nat) (a b : list Byte.byte) :
  wire (serial_ (runner evs).1) !! k = Some a ->
  wire (serial_ (runner evs).1) !! S k = Some b ->
  a <> b.
Proof.
  rewrite runner_loop. cbn [fst]. rewrite wire_finally.
  assert (Hgen : forall evs st,
            record_ok st ->
            (forall k a b, wire (serial_ st) !! k = Some a ->
                           wire (serial_ st) !! S k = Some b -> a <> b) ->
            forall k a b, wire (serial_ (loop evs st).1) !! k = Some a ->
                          wire (serial_ (loop evs st).1) !! S k = Some b -> a <> b).
  { clear. induction evs as [|ev evs IH]; intros st Hrec Hst; [exact Hst|].
    cbn [loop].
    pose proof (record_ok_iteration ev st Hrec) as Hrec'.
    assert (Hst' : forall k a b, wire (serial_ (iteration ev st).1) !! k = Some a ->
                                 wire (serial_ (iteration ev st).1) !! S k = Some b -> a <> b).
    { destruct (ret ev) eqn:Hret; [|unfold iteration; rewrite Hret; exact Hst].
      destruct (iteration_run ev st Hret) as (name & _ & _ & ->).
      destruct (bool_decide _) eqn:Hd; [|destruct (show_and_poll ev); exact Hst].
      apply bool_decide_eq_true in Hd.
      destruct (device_ok ev); cbn [fst serial_]; intros k a b; rewrite wire_app_call.
      - intros Ha Hb. destruct (lookup_snoc_pair _ _ _ _ _ Ha Hb) as [[Ha' Hb'] | [Hl ->]].
        + exact (Hst k a b Ha' Hb').
        + unfold record_ok, transmission_record in Hrec. rewrite Hl in Hrec. cbn in Hrec.
          intros E. apply Hd. apply encode_utf8_inj. congruence.
      - rewrite app_nil_r. apply Hst. }
    destruct (iteration ev st) as [st' [why|]]; cbn [fst] in *; [exact Hst'|].
    apply IH; assumption. }
  apply (Hgen evs initial record_ok_initial).
  intros k' a' b' H. cbn in H. discriminate H.
Qed.

Lemma wire_never_repeats_witness :
  encode_utf8 ("ZERO" +:+ newline) <> encode_utf8 ("FIVE" +:+ newline).
Proof.
  apply (wire_never_repeats
           [pass (frame_showing 10); pass (frame_showing 50); pass (frame_showing 205)] 0);
    reflexivity.
Defined.

Lemma level_text_name (d : Q) (name : string) :
  map_distance_to_scale d 15 200 = Ok name -> level_text d = name +:+ newline.
Proof.
  unfold map_distance_to_scale, getitem, level_text.
  destruct (mapping !! scale_key d 15 200); intros H; inversion H; reflexivity.
Qed.

(** X16.  The quit key is read after the transmission step: in a pass in
    which [q] is pressed, the frame is still measured and its level is still
    sent if it is new, and only then is the loop left. *)
Theorem quit_key_after_send (ev : frame_event) (st : state) :
  ret ev = true -> device_ok ev = true -> key_q ev = true ->
  exists scaled : string,
    (scaled_distance (frame ev) (detector st)).2 = Ok scaled /\
    (iteration ev st).2 = Some QuitKey /\
    last_sent_data (iteration ev st).1 = scaled /\
    wire (serial_ (iteration ev st).1)
    = wire (serial_ st)
        ++ (if bool_decide (scaled ≠ last_sent_data st) then [encode_utf8 scaled] else []).
Proof.
  intros Hret Hdev Hkey.
  destruct (iteration_run ev st Hret) as (name & Hn & Hs & ->).
  exists (name +:+ newline). rewrite Hs. split; [reflexivity|].
  unfold show_and_poll. rewrite Hdev, Hkey.
  destruct (bool_decide _) eqn:Hd; cbn [fst snd last_sent_data serial_].
  - rewrite wire_app_call. easy.
  - apply bool_decide_eq_false in Hd. apply dec_stable in Hd.
    rewrite app_nil_r. easy.
Qed.

Lemma quit_key_after_send_witness :
  (iteration {| ret := true; frame := frame_showing 205; device_ok := true; key_q := true |}
             initial).2 = Some QuitKey /\
  wire (serial_ (iteration {| ret := true; frame := frame_showing 205;
                              device_ok := true; key_q := true |} initial).1)
  = [encode_utf8 ("FIVE" +:+ newline)].
Proof.
  destruct (quit_key_after_send
              {| ret := true; frame := frame_showing 205; device_ok := true; key_q := true |}
              initial eq_refl eq_refl eq_refl) as (scaled & Hs & Hq & _ & Hw).
  split; [exact Hq|]. rewrite Hw. vm_compute in Hs. inversion Hs. reflexivity.
Defined.

(** X17.  The first frame the loop acquires is always followed by exactly
    one call of [serial_.write], carrying the level of the distance stored
    after that frame: the empty initial record differs from every level
    text. *)
Theorem first_frame_is_sent (ev : frame_event) :
  ret ev = true ->
  exists scaled : string,
    (scaled_distance (frame ev) (detector initial)).2 = Ok scaled /\
    write_calls (serial_ (iteration ev initial).1)
    = [{| data := encode_utf8 scaled; accepted := device_ok ev |}].
Proof.
  intros Hret.
  destruct (iteration_run ev initial Hret) as (name & Hn & Hs & ->).
  exists (name +:+ newline). rewrite Hs. split; [reflexivity|].
  rewrite bool_decide_eq_true_2 by apply text_not_empty.
  destruct (device_ok ev); reflexivity.
Qed.

Lemma first_frame_is_sent_witness :
  write_calls (serial_ (iteration (failing (frame_showing 90)) initial).1)
  = [{| data := encode_utf8 ("TWO" +:+ newline); accepted := false |}].
Proof.
  destruct (first_frame_is_sent (failing (frame_showing 90)) eq_refl) as (scaled & Hs & Hw).
  rewrite Hw. vm_compute in Hs. inversion Hs. reflexivity.
Defined.

(** X18.  While the loop runs, the device is in step with the detector:
    after any number of passes (at least one), the last payload that
    reached the device is the level text of the distance the detector
    holds. *)
Theorem device_in_step (ev0 : frame_event) (evs : list frame_event) (st : state) :
  loop (ev0 :: evs) initial = (st, None) ->
  exists name : string,
    map_distance_to_scale (line_dist (detector st))
                          min_distance_default max_distance_default = Ok name /\
    transmission_record (serial_ st) = encode_utf8 (name +:+ newline).
Proof.
  intros Hl.
  destruct (in_step_after_first ev0 evs st Hl) as (name & Hn & Hlast).
  pose proof (record_ok_loop (ev0 :: evs) initial record_ok_initial) as Hrec.
  rewrite Hl in Hrec. unfold record_ok in Hrec. cbn [fst] in Hrec.
  exists name. split; [exact Hn|]. now rewrite <- Hrec, Hlast.
Qed.

Lemma device_in_step_witness :
  exists name : string,
    map_distance_to_scale
      (line_dist (detector (loop [pass (frame_showing 130); pass empty_frame] initial).1))
      min_distance_default max_distance_default = Ok name /\
    transmission_record
      (serial_ (loop [pass (frame_showing 130); pass empty_frame] initial).1)
    = encode_utf8 (name +:+ newline).
Proof.
  apply (device_in_step (pass (frame_showing 130)) [pass empty_frame]). reflexivity.
Defined.

(** X19.  With every frame acquired, a working device and no key pressed,
    what reaches the wire is the sequence of the level texts of the
    distances stored frame after frame, with every text equal to the one
    before it left out. *)
Theorem wire_is_debounced_levels (evs : list frame_event) :
  Forall (fun ev => ret ev = true /\ device_ok ev = true /\ key_q ev = false) evs ->
  (runner evs).2 = None /\
  wire (serial_ (runner evs).1)
  = encode_utf8 <$> debounce "" (level_text <$> stored_distances 0 (frame <$> evs)).
Proof.
  intros Hall. rewrite runner_loop. cbn [fst snd]. rewrite wire_finally.
  assert (Hgen : forall st,
            (loop evs st).2 = None /\
            wire (serial_ (loop evs st).1)
            = wire (serial_ st)
                ++ (encode_utf8 <$> debounce (last_sent_data st)
                      (level_text <$> stored_distances (line_dist (detector st))
                                                       (frame <$> evs)))).
  { induction Hall as [|ev evs (Hret & Hdev & Hkey) Hall IH]; intros st.
    - split; [reflexivity|]. cbn. now rewrite app_nil_r.
    - cbn [loop fmap list_fmap stored_distances debounce].
      destruct (iteration_run ev st Hret) as (name & Hn & _ & _).
      rewrite (iteration_ok ev st name Hret Hdev Hkey Hn).
      destruct (IH {| serial_ :=
                        if bool_decide (name +:+ newline ≠ last_sent_data st)
                        then (serial_write true (encode_utf8 (name +:+ newline)) (serial_ st)).1
                        else serial_ st;
                      detector := observe (frame ev) (detector st);
                      last_sent_data := name +:+ newline |}) as [IH1 IH2].
      split; [exact IH1|]. rewrite IH2. cbn [serial_ detector last_sent_data].
      change (match fingertip_distance (frame ev) with
              | Some shown => shown
              | None => line_dist (detector st)
              end) with (line_dist (observe (frame ev) (detector st))).
      rewrite (level_text_name _ _ Hn).
      destruct (bool_decide (name +:+ newline ≠ last_sent_data st)) eqn:Hd.
      + rewrite wire_app_call. cbn [fmap list_fmap]. now rewrite <- app_assoc.
      + apply bool_decide_eq_false in Hd. apply dec_stable in Hd. now rewrite Hd. }
  apply (Hgen initial).
Qed.

Lemma wire_is_debounced_levels_witness :
  wire (serial_ (runner [pass (frame_showing 130); pass empty_frame;
                         pass (frame_showing 140); pass (frame_showing 170)]).1)
  = [encode_utf8 ("THREE" +:+ newline); encode_utf8 ("FOUR" +:+ newline)].
Proof.
  apply (proj2 (wire_is_debounced_levels
                  [pass (frame_showing 130); pass empty_frame;
                   pass (frame_showing 140); pass (frame_showing 170)]
                  ltac:(repeat constructor))).
Defined.

End WholeLoop.

(** ** Levels of pixel distances *)
Section PixelLevels.
Import Py Numpy Hands Spec Script.
Local Open Scope Q_scope.

(** The modelled [math.hypot] reaches an integer exactly when the sum of the
    squares reaches its square. *)
Lemma hypot_ge (a b m : Z) :
  (0 <= m)%Z -> (inject_Z m <= hypot a b <-> (m * m <= a * a + b * b)%Z).
Proof.
  intros Hm. unfold hypot, hypot_bits, Qle, inject_Z. cbn [Qnum Qden].
  change (2 * 52)%Z with 104%Z.
  assert (Hp : Z.pos (Z.to_pos (2 ^ 52)) = (2 ^ 52)%Z) by reflexivity.
  rewrite Hp, Z.mul_1_r.
  assert (Hn : (0 <= a * a + b * b)%Z) by nia.
  assert (H104 : (2 ^ 104 = 2 ^ 52 * 2 ^ 52)%Z) by reflexivity.
  assert (H52 : (0 < 2 ^ 52)%Z) by reflexivity.
  rewrite <- Z.sqrt_le_square by nia.
  rewrite H104. generalize dependent (2 ^ 52)%Z. intros P _ HP _.
  split; intros H; nia.
Qed.

Lemma hypot_lt (a b m : Z) :
  (0 <= m)%Z -> (hypot a b < inject_Z m <-> (a * a + b * b < m * m)%Z).
Proof.
  intros Hm. pose proof (hypot_ge a b m Hm) as H. split; intros Hlt.
  - destruct (Z_lt_ge_dec (a * a + b * b) (m * m)) as [|Hge]; [easy|].
    exfalso. apply (Qlt_not_le _ _ Hlt). apply H. lia.
  - apply Qnot_le_lt. intros Hle. apply H in Hle. lia.
Qed.

(** X1.  The level sent for a hand depends only on the squared pixel
    distance [n = dx*dx + dy*dy] between the two fingertips: level 0 for [n]
    below 52 squared, then levels 1, 2, 3 and 4 from 52, 89, 126 and 163
    squared, and level 5 from 200 squared on. *)
Theorem level_of_pixel_distance (dx dy k : Z) :
  maps_to_level (hypot dx dy) k <->
  (k = 0 /\ dx * dx + dy * dy < 2704)%Z \/
  (k = 1 /\ 2704 <= dx * dx + dy * dy < 7921)%Z \/
  (k = 2 /\ 7921 <= dx * dx + dy * dy < 15876)%Z \/
  (k = 3 /\ 15876 <= dx * dx + dy * dy < 26569)%Z \/
  (k = 4 /\ 26569 <= dx * dx + dy * dy < 40000)%Z \/
  (k = 5 /\ 40000 <= dx * dx + dy * dy)%Z.
Proof.
  rewrite level_bands_exact.
  pose proof (hypot_ge dx dy 52 ltac:(lia)) as G52.
  pose proof (hypot_ge dx dy 89 ltac:(lia)) as G89.
  pose proof (hypot_ge dx dy 126 ltac:(lia)) as G126.
  pose proof (hypot_ge dx dy 163 ltac:(lia)) as G163.
  pose proof (hypot_ge dx dy 200 ltac:(lia)) as G200.
  pose proof (hypot_lt dx dy 52 ltac:(lia)) as L52.
  pose proof (hypot_lt dx dy 89 ltac:(lia)) as L89.
  pose proof (hypot_lt dx dy 126 ltac:(lia)) as L126.
  pose proof (hypot_lt dx dy 163 ltac:(lia)) as L163.
  pose proof (hypot_lt dx dy 200 ltac:(lia)) as L200.
  change (inject_Z 52) with 52 in *. change (inject_Z 89) with 89 in *.
  change (inject_Z 126) with 126 in *. change (inject_Z 163) with 163 in *.
  change (inject_Z 200) with 200 in *.
  change (52 * 52)%Z with 2704%Z in *. change (89 * 89)%Z with 7921%Z in *.
  change (126 * 126)%Z with 15876%Z in *. change (163 * 163)%Z with 26569%Z in *.
  change (200 * 200)%Z with 40000%Z in *.
  rewrite G52, G89, G126, G163, G200, L52, L89, L126, L163, L200.
  tauto.
Qed.

Lemma level_of_pixel_distance_witness :
  maps_to_level (hypot 120 40) 3%Z /\ ~ maps_to_level (hypot 199 19) 5%Z.
Proof.
  split.
  - apply (proj2 (level_of_pixel_distance 120 40 3)). do 3 right; left. lia.
  - intros H. apply (proj1 (level_of_pixel_distance 199 19 5)) in H. lia.
Defined.

End PixelLevels.

(** ** The payload of every write (claim C2) *)
Section Payloads.
Import Py Numpy Hands Runner Spec Script.

(** The calls of [write] made so far stay at the head of the log. *)
Lemma write_calls_loop_prefix (evs : list frame_event) (st : state) :
  exists more, write_calls (serial_ (loop evs st).1) = write_calls (serial_ st) ++ more.
Proof.
  revert st. induction evs as [|ev evs IH]; intros st.
  - exists []. cbn. now rewrite app_nil_r.
  - cbn [loop].
    assert (Hstep : exists more1,
              write_calls (serial_ (iteration ev st).1) = write_calls (serial_ st) ++ more1).
    { destruct (write_calls_iteration ev st) as [[-> _] | [(c & -> & _) | (c & -> & _)]];
        [exists []; now rewrite app_nil_r | eauto | eauto]. }
    destruct Hstep as (more1 & H1).
    destruct (iteration ev st) as [st1 [why|]]; cbn [fst] in *; [eauto|].
    destruct (IH st1) as (more & H2). exists (more1 ++ more).
    now rewrite H2, H1, app_assoc.
Qed.

(** The call a pass makes, if it makes one, carries the name of the level
    of the distance the detector holds after the pass, and a newline. *)
Lemma iteration_call (ev : frame_event) (st : state) :
  write_calls (serial_ (iteration ev st).1) = write_calls (serial_ st) \/
  exists (c : write_call) (name : string),
    write_calls (serial_ (iteration ev st).1) = write_calls (serial_ st) ++ [c] /\
    map_distance_to_scale (line_dist (detector (iteration ev st).1)) 15 200 = Ok name /\
    data c = encode_utf8 (name +:+ newline).
Proof.
  destruct (ret ev) eqn:Hret; [|left; unfold iteration; now rewrite Hret].
  destruct (iteration_run ev st Hret) as (name & Hn & _ & ->).
  destruct (bool_decide _); [|now left].
  right. destruct (device_ok ev); eexists _, name; cbn [fst detector];
    (split; [reflexivity|]); (split; [exact Hn | reflexivity]).
Qed.

Lemma call_origin (evs : list frame_event) (st0 st : state) (why : option exit)
      (n : nat) (c : write_call) :
  loop evs st0 = (st, why) ->
  write_calls (serial_ st) !! n = Some c ->
  (length (write_calls (serial_ st0)) <= n)%nat ->
  exists (evs1 : list frame_event) (ev : frame_event) (evs2 : list frame_event)
         (st1 : state) (name : string),
    evs = evs1 ++ ev :: evs2 /\
    loop evs1 st0 = (st1, None) /\
    length (write_calls (serial_ st1)) = n /\
    write_calls (serial_ (iteration ev st1).1) = write_calls (serial_ st1) ++ [c] /\
    map_distance_to_scale (line_dist (detector (iteration ev st1).1)) 15 200 = Ok name /\
    data c = encode_utf8 (name +:+ newline).
Proof.
  revert st0. induction evs as [|ev evs IH]; intros st0 Hl Hc Hn.
  - cbn in Hl. inversion Hl; subst. apply lookup_lt_Some in Hc. lia.
  - cbn [loop] in Hl.
    pose proof (iteration_call ev st0) as Hstep.
    pose proof (write_calls_loop_prefix evs (iteration ev st0).1) as (more & Hpre).
    destruct (iteration ev st0) as [st1 w] eqn:Hit. cbn [fst] in *.
    assert (Hrec : (length (write_calls (serial_ st1)) <= n)%nat ->
              w = None ->
              exists evs1 ev' evs2 st2 name,
                ev :: evs = evs1 ++ ev' :: evs2 /\
                loop evs1 st0 = (st2, None) /\
                length (write_calls (serial_ st2)) = n /\
                write_calls (serial_ (iteration ev' st2).1) = write_calls (serial_ st2) ++ [c] /\
                map_distance_to_scale (line_dist (detector (iteration ev' st2).1)) 15 200
                = Ok name /\
                data c = encode_utf8 (name +:+ newline)).
    { intros Hlen ->.
      destruct (IH st1 Hl Hc Hlen) as (evs1 & ev' & evs2 & st2 & name & -> & Hl1 & Hrest).
      exists (ev :: evs1), ev', evs2, st2, name. split; [reflexivity|].
      split; [cbn [loop]; now rewrite Hit | exact Hrest]. }
    assert (Hstop : forall why', w = Some why' -> st = st1).
    { intros why' ->. now inversion Hl. }
    destruct Hstep as [Hsame | (c0 & name & Happ & Hname & Hdata)].
    + destruct w as [why'|].
      * rewrite (Hstop why' eq_refl), Hsame in Hc. apply lookup_lt_Some in Hc. lia.
      * apply Hrec; [rewrite Hsame; exact Hn | reflexivity].
    + destruct (decide (n = length (write_calls (serial_ st0)))) as [Heq|Hne].
      * assert (Hc0 : c = c0).
        { destruct w as [why'|].
          - rewrite (Hstop why' eq_refl), Happ, Heq in Hc.
            rewrite lookup_app_r, Nat.sub_diag in Hc by lia. cbn in Hc. congruence.
          - rewrite Hl in Hpre. cbn [fst] in Hpre.
            rewrite Hpre, Happ, Heq, <- app_assoc in Hc.
            rewrite lookup_app_r, Nat.sub_diag in Hc by lia. cbn in Hc. congruence. }
        subst c0. exists [], ev, evs, st0, name.
        split; [reflexivity|]. split; [reflexivity|]. split; [now symmetry|].
        rewrite Hit. cbn [fst]. easy.
      * destruct w as [why'|].
        -- rewrite (Hstop why' eq_refl), Happ in Hc. apply lookup_lt_Some in Hc.
           rewrite length_app in Hc. cbn in Hc. lia.
        -- apply Hrec; [rewrite Happ, length_app; cbn; lia | reflexivity].
Qed.

(** C2, amended.  Every byte sequence the loop passes to [serial_.write] is
    the name of the transmitted level followed by a newline, one byte per
    character: the [n]-th call is made in one pass of the loop, and its
    bytes are the name [mapping] holds for the level [k], between 0 and 5,
    that line 168 computes from the distance the detector holds in that
    pass. *)
Theorem payload_is_level_name (evs : list frame_event) (st : state)
        (why : option exit) (n : nat) (c : write_call) :
  runner evs = (st, why) -> write_calls (serial_ st) !! n = Some c ->
  exists (evs1 : list frame_event) (ev : frame_event) (evs2 : list frame_event)
         (st1 : state) (k : Z) (name : string),
    evs = evs1 ++ ev :: evs2 /\
    loop evs1 initial = (st1, None) /\
    length (write_calls (serial_ st1)) = n /\
    write_calls (serial_ (iteration ev st1).1) = write_calls (serial_ st1) ++ [c] /\
    scale_key (line_dist (detector (iteration ev st1).1))
              min_distance_default max_distance_default = k /\
    0 <= k <= 5 /\ mapping !! k = Some name /\
    data c = encode_utf8 (name +:+ newline).
Proof.
  rewrite runner_loop. intros Hr Hc. inversion Hr; subst st. clear Hr.
  rewrite write_calls_finally in Hc.
  destruct (call_origin evs initial (loop evs initial).1 (loop evs initial).2 n c)
    as (evs1 & ev & evs2 & st1 & name & He & Hl & Hlen & Happ & Hname & Hdata).
  - now destruct (loop evs initial).
  - exact Hc.
  - cbn. lia.
  - exists evs1, ev, evs2, st1,
      (scale_key (line_dist (detector (iteration ev st1).1)) 15 200), name.
    repeat split; try assumption; try apply scale_key_range.
    destruct (map_distance_to_scale_total (line_dist (detector (iteration ev st1).1)))
      as (name' & Hn' & Hm & _).
    rewrite Hname in Hn'. inversion Hn'; subst name'. exact Hm.
Qed.

Lemma payload_is_level_name_witness :
  exists (evs1 : list frame_event) (ev : frame_event) (evs2 : list frame_event)
         (st1 : state) (k : Z) (name : string),
    [pass (frame_showing 10); pass (frame_showing 50); pass (frame_showing 205)]
    = evs1 ++ ev :: evs2 /\
    loop evs1 initial = (st1, None) /\
    length (write_calls (serial_ st1)) = 1%nat /\
    write_calls (serial_ (iteration ev st1).1)
    = write_calls (serial_ st1)
        ++ [{| data := encode_utf8 ("FIVE" +:+ newline); accepted := true |}] /\
    scale_key (line_dist (detector (iteration ev st1).1))
              min_distance_default max_distance_default = k /\
    0 <= k <= 5 /\ mapping !! k = Some name /\
    encode_utf8 ("FIVE" +:+ newline) = encode_utf8 (name +:+ newline).
Proof.
  apply (payload_is_level_name
           [pass (frame_showing 10); pass (frame_showing 50); pass (frame_showing 205)]
           _ _ 1%nat {| data := encode_utf8 ("FIVE" +:+ newline); accepted := true |} eq_refl).
  reflexivity.
Defined.

End Payloads.
